(** * medical-telegram-warehouse: the image classifier, the two loaders
      and the pipeline stages

    A shallow embedding of
    - [src/yolo_detect.py]            ([classify_image], [process_image],
                                       [find_all_images],
                                       [save_results_to_csv], [main]),
    - [src/scraper.py]                ([extract_message_data],
                                       [scrape_channel]),
    - [scripts/load_to_postgres.py]   ([load_json_file], [insert_messages],
                                       [main]),
    - [scripts/load_yolo_results.py]  ([load_yolo_results], [main]),
    - [pipeline.py]                   (the Dagster ops),
    the properties of them that the specification states (C1 to C10), and
    further properties read off the code (X1 to X16). *)

From Stdlib Require Import ZArith Ascii String Floats.PrimFloat.
From Stdlib Require Import Floats.SpecFloat Floats.FloatAxioms.
From stdpp Require Import gmap strings list fin_maps.

Local Open Scope Z_scope.

(** ** Python values shared by the modules *)

(** A Python [float]: an IEEE-754 binary64, the kernel's primitive float. *)
Abbreviation pyfloat := PrimFloat.float.

(** * The classifier ([src/yolo_detect.py]) *)

Module Yolo.

(** COCO class indices, as the module's constants. *)
Definition PERSON_CLASS : Z := 0.
Definition BOTTLE_CLASS : Z := 39.
Definition CUP_CLASS : Z := 41.
Definition BOWL_CLASS : Z := 46.

(** One element of [detections]: the dict
    [{'class': cls_id, 'class_name': ..., 'confidence': ...}]. *)
Record Detection := mkDetection {
  d_class : Z;
  d_class_name : string;
  d_confidence : pyfloat
}.

Inductive Category := promotional | product_display | lifestyle | other.

(** [x in xs] on a list of ints. *)
Definition py_in (x : Z) (xs : list Z) : bool :=
  existsb (Z.eqb x) xs.

(** [{d['class']: d['confidence'] for d in detections}]: the comprehension
    stores the pairs from left to right, a later pair replacing an earlier one
    with the same key. *)
Definition dict_comprehension (detections : list Detection) : gmap Z pyfloat :=
  foldl (fun m d => <[d_class d := d_confidence d]> m) ∅ detections.

Definition classify_image (detections : list Detection)
  : Category * gmap Z pyfloat :=
  let detected_classes := map d_class detections in
  let class_confidences := dict_comprehension detections in
  let has_person := py_in PERSON_CLASS detected_classes in
  let has_product :=
    existsb (fun cls => py_in cls detected_classes)
            [BOTTLE_CLASS; CUP_CLASS; BOWL_CLASS] in
  let category :=
    if has_person && has_product then promotional
    else if has_product && negb has_person then product_display
    else if has_person && negb has_product then lifestyle
    else other in
  (category, class_confidences).

(** [max(detections, key=lambda x: x['confidence'])]: the running maximum is
    replaced only by an element whose key is strictly greater, so the first
    of several maximal elements is returned. *)
Definition max_by_confidence (d0 : Detection) (rest : list Detection)
  : Detection :=
  foldl (fun best d =>
           if PrimFloat.ltb (d_confidence best) (d_confidence d)
           then d else best) d0 rest.

(** [max(...) if detections else None]. *)
Definition top_detection (detections : list Detection) : option Detection :=
  match detections with
  | [] => None
  | d0 :: rest => Some (max_by_confidence d0 rest)
  end.

(** The fields of the result row that [process_image] computes from the
    detections it has read off the model's boxes. *)
Record ImageSummary := mkImageSummary {
  detected_objects_count : nat;
  top_detected_class : option string;
  top_confidence : pyfloat;
  image_category : Category;
  all_confidences : gmap Z pyfloat
}.

Definition process_image (detections : list Detection) : ImageSummary :=
  let '(category, class_confidences) := classify_image detections in
  let top := top_detection detections in
  {| detected_objects_count := length detections;
     top_detected_class := d_class_name <$> top;
     top_confidence :=
       match top with Some t => d_confidence t | None => 0%float end;
     image_category := category;
     all_confidences := class_confidences |}.

(** *** Vocabulary of the specification *)

Definition has_subject (D : list Detection) : Prop :=
  ∃ d, d ∈ D ∧ d_class d = PERSON_CLASS.

Definition has_object (D : list Detection) : Prop :=
  ∃ d, d ∈ D ∧
       (d_class d = BOTTLE_CLASS ∨ d_class d = CUP_CLASS ∨ d_class d = BOWL_CLASS).

(** The detections of class [c], in the order of [D]. *)
Definition of_class (c : Z) (D : list Detection) : list Detection :=
  filter (fun d => d_class d = c) D.

(** What the specification says of a map entry: [v] is the confidence of a
    detection of class [c], and no detection of class [c] has a greater one. *)
Definition is_max_confidence (D : list Detection) (c : Z) (v : pyfloat) : Prop :=
  (∃ d, d ∈ D ∧ d_class d = c ∧ d_confidence d = v) ∧
  (∀ d, d ∈ D → d_class d = c → PrimFloat.leb (d_confidence d) v = true).

(** *** Sample detections *)

Definition person (c : pyfloat) : Detection := mkDetection 0 "person" c.
Definition bottle (c : pyfloat) : Detection := mkDetection 39 "bottle" c.
Definition cat (c : pyfloat) : Detection := mkDetection 15 "cat" c.

Definition two_persons : list Detection := [person 0.75; person 0.5].

End Yolo.

(** * The database session shared by the two loaders

    Both loaders talk to PostgreSQL through a [psycopg2] connection opened
    with the default settings of [DB_CONFIG]: statements run inside a
    transaction that lasts until [conn.commit()] or [conn.rollback()], and
    [TRUNCATE] is part of that transaction like any other statement.  What
    other sessions read, and what is left when the process ends without a
    commit, is the committed table. *)

Module Db.

Section Connection.
Context {Tbl : Type}.

Record connection := mkConn {
  committed : Tbl;   (* what every other session sees *)
  session : Tbl      (* what this session's open transaction sees *)
}.

(** [psycopg2.connect] on a database whose table holds [tbl]. *)
Definition connect (tbl : Tbl) : connection := mkConn tbl tbl.

Definition commit (c : connection) : connection :=
  mkConn (session c) (session c).

Definition rollback (c : connection) : connection :=
  mkConn (committed c) (committed c).

(** [cur.execute(..)] of one statement that maps the table by [f]. *)
Definition run (f : Tbl → Tbl) (c : connection) : connection :=
  mkConn (committed c) (f (session c)).
End Connection.

Arguments connection : clear implicits.

(** The result of a Python call that may raise. *)
Inductive outcome (A : Type) := Returned (a : A) | Raised.
Arguments Returned {A} a.
Arguments Raised {A}.

(** [psycopg2.extras.execute_batch(cur, sql, argslist, page_size)]: the
    argument tuples are cut into pages of [page_size]; each page is sent as
    one string of statements, executed in order; the first statement the
    server rejects raises and leaves the transaction where it was. *)
Section ExecuteBatch.
Context {Tup Tbl : Type}.
(** One parametrised statement: [None] when the server rejects it. *)
Variable statement : Tup → Tbl → option Tbl.

(** [_paginate] for a page size of [S n]: [page] is the page being filled,
    [room] the number of tuples it can take after the next one. *)
Fixpoint paginate_from (n : nat) (page : list Tup) (room : nat)
         (seq : list Tup) : list (list Tup) :=
  match seq with
  | [] => match page with [] => [] | _ => [page] end
  | x :: rest =>
      match room with
      | O => (page ++ [x]) :: paginate_from n [] n rest
      | S r => paginate_from n (page ++ [x]) r rest
      end
  end.

(** The callers pass 1000 or leave the default of 100; a page size of 0 is
    not used. *)
Definition paginate (page_size : nat) (seq : list Tup) : list (list Tup) :=
  match page_size with
  | O => []
  | S n => paginate_from n [] n seq
  end.

(** The statements of one page; the flag tells whether all were accepted,
    the table is the one reached. *)
Fixpoint execute_page (page : list Tup) (tbl : Tbl) : bool * Tbl :=
  match page with
  | [] => (true, tbl)
  | t :: rest =>
      match statement t tbl with
      | Some tbl' => execute_page rest tbl'
      | None => (false, tbl)
      end
  end.

Fixpoint execute_pages (pages : list (list Tup)) (tbl : Tbl) : bool * Tbl :=
  match pages with
  | [] => (true, tbl)
  | page :: rest =>
      match execute_page page tbl with
      | (true, tbl') => execute_pages rest tbl'
      | (false, tbl') => (false, tbl')
      end
  end.

Definition execute_batch (page_size : nat) (argslist : list Tup)
           (c : connection Tbl) : bool * connection Tbl :=
  let '(ok, tbl) := execute_pages (paginate page_size argslist) (session c) in
  (ok, mkConn (committed c) tbl).
End ExecuteBatch.

(** Column types of the [CREATE TABLE] statement. *)
Definition fits_bigint (z : Z) : bool := (- 2 ^ 63 <=? z) && (z <? 2 ^ 63).
Definition fits_integer (z : Z) : bool := (- 2 ^ 31 <=? z) && (z <? 2 ^ 31).
Definition fits_varchar (n : nat) (s : string) : bool :=
  (String.length s <=? n)%nat.
Definition null_or {A} (p : A → bool) (o : option A) : bool :=
  match o with Some a => p a | None => true end.

(** One write of a left fold of inserts: [a] is stored under [key a]. *)
Definition put {K : Type} `{Countable K} {V A : Type}
           (key : A → K) (val : A → V) (m : gmap K V) (a : A) : gmap K V :=
  <[key a := val a]> m.

End Db.

(** * The raw loader ([scripts/load_to_postgres.py]) *)

Module RawLoader.
Import Db.

(** A [datetime], as microseconds since the epoch. *)
Definition Timestamp := Z.

(** One element of a scraped JSON file: the dict written by the scraper.
    [None] is a key that is missing or [null]; for [has_media], whose
    [get] has a default, the outer [None] is the missing key and
    [Some None] is [null]. *)
Record Message := mkMessage {
  m_message_id : option Z;
  m_channel_name : option string;
  m_message_date : option string;
  m_message_text : option string;
  m_has_media : option (option bool);
  m_image_path : option string;
  m_views : option Z;
  m_forwards : option Z
}.

(** The columns of [raw.telegram_messages] outside the primary key
    [(message_id, channel_name)]. *)
Record RecordData := mkRecordData {
  message_date : option Timestamp;
  message_text : option string;
  has_media : option bool;
  image_path : option string;
  views : option Z;
  forwards : option Z
}.

Record Row := mkRow {
  data : RecordData;
  loaded_at : Timestamp
}.

Abbreviation Key := (Z * string)%type.
Abbreviation Table := (gmap Key Row).

(** One tuple of [insert_data]. *)
Record InsertTuple := mkInsertTuple {
  t_message_id : option Z;
  t_channel_name : string;
  t_row : Row
}.

(** [s.replace('Z', '+00:00')]. *)
Fixpoint replace_Z (s : string) : string :=
  match s with
  | EmptyString => EmptyString
  | String c rest =>
      if Ascii.eqb c "Z"%char then ("+00:00" +:+ replace_Z rest)%string
      else String c (replace_Z rest)
  end.

(** Truth value of an optional string: [None] and [''] are false. *)
Definition truthy (o : option string) : option string :=
  match o with
  | Some s => if String.eqb s "" then None else Some s
  | None => None
  end.

(** Does the server accept the tuple?  [message_id] is [BIGINT NOT NULL],
    [channel_name] is [VARCHAR(255)], [image_path] is [VARCHAR(1000)],
    [views] and [forwards] are [INTEGER]. *)
Definition accepted (t : InsertTuple) : bool :=
  match t_message_id t with
  | None => false
  | Some id =>
      fits_bigint id
      && fits_varchar 255 (t_channel_name t)
      && null_or (fits_varchar 1000) (image_path (data (t_row t)))
      && null_or fits_integer (views (data (t_row t)))
      && null_or fits_integer (forwards (data (t_row t)))
  end.

(** The [INSERT ... ON CONFLICT (message_id, channel_name) DO UPDATE SET ...]
    statement: a new key gets the row, an existing key has all seven other
    columns set from the incoming tuple. *)
Definition upsert (t : InsertTuple) (tbl : Table) : option Table :=
  match t_message_id t with
  | Some id =>
      if accepted t then Some (<[(id, t_channel_name t) := t_row t]> tbl)
      else None
  | None => None
  end.

(** What [json.load] finds in a file. *)
Inductive JsonFile :=
  | Unreadable
  | NotAList
  | MessageList (messages : list Message).

Definition load_json_file (f : JsonFile) : list Message :=
  match f with
  | MessageList messages => messages
  | NotAList => []
  | Unreadable => []
  end.

Section WithDatetime.
(** [datetime.fromisoformat]; [None] when it raises. *)
Variable fromisoformat : string → option Timestamp.

(** The body of the preparation loop for the [i]-th message; [now i] is
    what [datetime.now()] returns there. *)
Definition prepare (channel_name : string) (now : nat → Timestamp)
           (i : nat) (msg : Message) : InsertTuple :=
  let message_date :=
    match truthy (m_message_date msg) with
    | Some s => fromisoformat (replace_Z s)
    | None => None
    end in
  {| t_message_id := m_message_id msg;
     t_channel_name :=
       match truthy (m_channel_name msg) with
       | Some c => c
       | None => channel_name
       end;
     t_row :=
       {| data :=
            {| message_date := message_date;
               message_text := m_message_text msg;
               has_media :=
                 match m_has_media msg with
                 | Some v => v
                 | None => Some false
                 end;
               image_path := m_image_path msg;
               views := m_views msg;
               forwards := m_forwards msg |};
          loaded_at := now i |} |}.

Definition insert_data (messages : list Message) (channel_name : string)
           (now : nat → Timestamp) : list InsertTuple :=
  imap (prepare channel_name now) messages.

Definition insert_messages (conn : connection Table)
           (messages : list Message) (channel_name : string)
           (now : nat → Timestamp) : outcome nat * connection Table :=
  match messages with
  | [] => (Returned 0%nat, conn)
  | _ =>
      let insert_data := insert_data messages channel_name now in
      match execute_batch upsert 1000 insert_data conn with
      | (true, conn') => (Returned (length insert_data), commit conn')
      | (false, conn') => (Raised, rollback conn')
      end
  end.

(** The loop of [main] over the remaining files.  [clock n] is what the
    [n]-th call of [datetime.now()] in the process returns; every call of
    [insert_messages] that returned has made as many calls of it as the
    count it returned, so [total_messages] is also the number of calls made
    so far. *)
Fixpoint load_files (conn : connection Table)
         (json_files : list (string * JsonFile)) (clock : nat → Timestamp)
         (total_messages : nat)
  : outcome nat * connection Table :=
  match json_files with
  | [] => (Returned total_messages, conn)
  | (channel_name, json_file) :: rest =>
      let messages := load_json_file json_file in
      match messages with
      | [] => load_files conn rest clock total_messages
      | _ =>
          match insert_messages conn messages channel_name
                                (fun i => clock (total_messages + i)%nat) with
          | (Returned count, conn') =>
              load_files conn' rest clock (total_messages + count)%nat
          | (Raised, conn') => (Raised, conn')
          end
      end
  end.

(** [main]: [db] is the table of the database when it can be reached.  The
    result is the exit status of the process and the table left behind. *)
Definition main (db : option Table) (json_files : list (string * JsonFile))
           (clock : nat → Timestamp) : Z * option Table :=
  match db with
  | None => (0, None)                    (* logged, then [return] *)
  | Some tbl =>
      let conn := commit (connect tbl) in           (* create_raw_schema *)
      match json_files with
      | [] => (0, Some (committed conn))
      | _ =>
          match load_files conn json_files clock 0 with
          | (Returned _, conn') => (0, Some (committed conn'))
          | (Raised, conn') => (1, Some (committed conn'))
          end
      end
  end.
End WithDatetime.

(** *** Vocabulary of the specification *)

(** The primary key a tuple is stored under; [message_id] is [NOT NULL], so
    an accepted tuple has one. *)
Definition key_of (t : InsertTuple) : Key :=
  (default 0 (t_message_id t), t_channel_name t).

Definition natural_key (t : InsertTuple) : option Key :=
  id ← t_message_id t; Some (id, t_channel_name t).

(** The rows of the table whose primary key is [k]. *)
Definition rows_with_key (k : Key) (tbl : Table) : list (Key * Row) :=
  filter (fun kv => kv.1 = k) (map_to_list tbl).

(** The table written by a list of accepted tuples. *)
Definition write_all (tbl : Table) (l : list InsertTuple) : Table :=
  foldl (put key_of t_row) tbl l.

(** Whether a tuple is accepted, where it is stored and what is stored
    apart from [loaded_at] do not depend on the clock. *)
Definition content (t : InsertTuple) : Key * RecordData :=
  (key_of t, data (t_row t)).

(** The tuples that [main] prepares for the files, in the order of the
    files, when [total] messages came before them. *)
Fixpoint all_tuples (fromisoformat : string → option Timestamp)
         (json_files : list (string * JsonFile)) (clock : nat → Timestamp)
         (total : nat) : list InsertTuple :=
  match json_files with
  | [] => []
  | (channel_name, json_file) :: rest =>
      insert_data fromisoformat (load_json_file json_file) channel_name
                  (fun i => clock (total + i)%nat)
      ++ all_tuples fromisoformat rest clock
                    (total + length (load_json_file json_file))%nat
  end.

(** Do the values of a message, stored under [(id, channel)], fit the
    column types of the [CREATE TABLE] statement? *)
Definition fits_columns (id : Z) (channel : string) (msg : Message) : bool :=
  fits_bigint id
  && fits_varchar 255 channel
  && null_or (fits_varchar 1000) (m_image_path msg)
  && null_or fits_integer (m_views msg)
  && null_or fits_integer (m_forwards msg).

(** The message with its [message_date] taken out. *)
Definition without_date (msg : Message) : Message :=
  {| m_message_id := m_message_id msg;
     m_channel_name := m_channel_name msg;
     m_message_date := None;
     m_message_text := m_message_text msg;
     m_has_media := m_has_media msg;
     m_image_path := m_image_path msg;
     m_views := m_views msg;
     m_forwards := m_forwards msg |}.

(** *** Sample inputs *)

(** A date parser for inputs that carry no date. *)
Definition no_dates : string → option Timestamp := fun _ => None.

Definition text_message (id : Z) (text : string) (image : option string)
  : Message :=
  {| m_message_id := Some id; m_channel_name := Some "chan"%string;
     m_message_date := None; m_message_text := Some text;
     m_has_media := Some (Some (bool_decide (is_Some image)));
     m_image_path := image; m_views := Some 10; m_forwards := Some 2 |}.

(** A message without [message_id]: the server rejects its tuple. *)
Definition no_id_message : Message :=
  {| m_message_id := None; m_channel_name := None;
     m_message_date := None; m_message_text := Some "lost"%string;
     m_has_media := None; m_image_path := None;
     m_views := None; m_forwards := None |}.

Definition at_time (t : Z) : nat → Timestamp := fun i => t + Z.of_nat i.


(** [datetime.fromisoformat] on the one date of the samples, and on a
    string that is no date. *)
Definition sample_dates (s : string) : option Timestamp :=
  if String.eqb s "2024-01-05T10:00:00+00:00" then Some 1704448800000000
  else None.

(** A message with a date in the [Z] notation, a media flag and counts. *)
Definition dated_message (id : Z) (text : string) : Message :=
  {| m_message_id := Some id; m_channel_name := Some "chan"%string;
     m_message_date := Some "2024-01-05T10:00:00Z"%string;
     m_message_text := Some text; m_has_media := Some (Some true);
     m_image_path := Some "images/chan/7.jpg"%string;
     m_views := Some 120; m_forwards := Some 3 |}.

(** A message whose date is not a date. *)
Definition misdated_message (id : Z) (text : string) : Message :=
  {| m_message_id := Some id; m_channel_name := Some "chan"%string;
     m_message_date := Some "yesterday"%string;
     m_message_text := Some text; m_has_media := None;
     m_image_path := None; m_views := Some 5; m_forwards := None |}.

(** A table with one row, left by an earlier load. *)
Definition old_raw_table : Table :=
  {[ (1, "chan"%string) :=
       {| data := {| message_date := None; message_text := Some "old"%string;
                     has_media := Some false; image_path := None;
                     views := Some 4; forwards := Some 0 |};
          loaded_at := 500 |} ]}.


End RawLoader.

(** * The detection loader ([scripts/load_yolo_results.py]) *)

Module DetectionLoader.
Import Db.

(** One row of [yolo_detections.csv] as [csv.DictReader] yields it: every
    field is a string, [''] for an empty cell.  The file has the header that
    [save_results_to_csv] writes. *)
Record CsvRow := mkCsvRow {
  c_message_id : string;
  c_channel_name : string;
  c_image_path : string;
  c_detected_objects_count : string;
  c_detected_classes : string;
  c_top_detected_class : string;
  c_top_confidence : string;
  c_image_category : string;
  c_all_confidences : string
}.

(** The columns of [raw.yolo_detections] outside the primary key
    [(message_id, channel_name)]. *)
Record Row := mkRow {
  image_path : string;
  detected_objects_count : Z;
  detected_classes : option string;
  top_detected_class : option string;
  top_confidence : pyfloat;
  image_category : string;
  all_confidences : option string;
  loaded_at : Z
}.

Abbreviation Key := (Z * string)%type.
Abbreviation Table := (gmap Key Row).

(** One tuple of [rows]. *)
Record InsertTuple := mkInsertTuple {
  t_message_id : Z;
  t_channel_name : string;
  t_image_path : string;
  t_detected_objects_count : Z;
  t_detected_classes : option string;
  t_top_detected_class : option string;
  t_top_confidence : pyfloat;
  t_image_category : string;
  t_all_confidences : option string
}.

(** [s or None]. *)
Definition or_None (s : string) : option string :=
  if String.eqb s "" then None else Some s.

Definition key_of (t : InsertTuple) : Key := (t_message_id t, t_channel_name t).

(** The row stored for a tuple by a statement run at [current_timestamp]:
    [loaded_at] is the column default on insert and is set again on
    conflict. *)
Definition row_of (current_timestamp : Z) (t : InsertTuple) : Row :=
  {| image_path := t_image_path t;
     detected_objects_count := t_detected_objects_count t;
     detected_classes := t_detected_classes t;
     top_detected_class := t_top_detected_class t;
     top_confidence := t_top_confidence t;
     image_category := t_image_category t;
     all_confidences := t_all_confidences t;
     loaded_at := current_timestamp |}.

(** Does the server accept the tuple?  [message_id] is [BIGINT],
    [channel_name] and [top_detected_class] are [VARCHAR(255)], [image_path]
    is [VARCHAR(1000)], [detected_objects_count] is [INTEGER],
    [image_category] is [VARCHAR(50)]. *)
Definition accepted (t : InsertTuple) : bool :=
  fits_bigint (t_message_id t)
  && fits_varchar 255 (t_channel_name t)
  && fits_varchar 1000 (t_image_path t)
  && fits_integer (t_detected_objects_count t)
  && null_or (fits_varchar 255) (t_top_detected_class t)
  && fits_varchar 50 (t_image_category t).

(** The [INSERT ... ON CONFLICT (message_id, channel_name) DO UPDATE SET ...]
    statement. *)
Definition upsert (current_timestamp : Z) (t : InsertTuple) (tbl : Table)
  : option Table :=
  if accepted t then Some (<[key_of t := row_of current_timestamp t]> tbl)
  else None.

(** [TRUNCATE TABLE raw.yolo_detections;] *)
Definition truncate (tbl : Table) : Table := ∅.

Section WithBuiltins.
(** [int] and [float] on a string; [None] when they raise [ValueError]. *)
Variable py_int : string → option Z.
Variable py_float : string → option pyfloat.

(** The tuple built from one CSV row; [None] when a conversion raises. *)
Definition parse_row (row : CsvRow) : option InsertTuple :=
  message_id ← py_int (c_message_id row);
  count ← (if String.eqb (c_detected_objects_count row) "" then Some 0
           else py_int (c_detected_objects_count row));
  confidence ← (if String.eqb (c_top_confidence row) "" then Some 0%float
                else py_float (c_top_confidence row));
  Some {| t_message_id := message_id;
          t_channel_name := c_channel_name row;
          t_image_path := c_image_path row;
          t_detected_objects_count := count;
          t_detected_classes := or_None (c_detected_classes row);
          t_top_detected_class := or_None (c_top_detected_class row);
          t_top_confidence := confidence;
          t_image_category := c_image_category row;
          t_all_confidences := or_None (c_all_confidences row) |}.

(** The reading loop: the tuples of all rows, or [None] at the first row
    whose conversion raises. *)
Definition read_rows (lines : list CsvRow) : option (list InsertTuple) :=
  mapM parse_row lines.

(** [csv_file] is [None] when the file does not exist, and its rows
    otherwise; [current_timestamp] is the time of the transaction. *)
Definition load_yolo_results (conn : connection Table)
           (csv_file : option (list CsvRow)) (current_timestamp : Z)
  : outcome nat * connection Table :=
  match csv_file with
  | None => (Returned 0%nat, conn)
  | Some lines =>
      let conn := run truncate conn in
      match read_rows lines with
      | None => (Raised, conn)
      | Some rows =>
          match execute_batch (upsert current_timestamp) 100 rows conn with
          | (true, conn') => (Returned (length rows), commit conn')
          | (false, conn') => (Raised, conn')
          end
      end
  end.

(** [main]: [db] is the table of the database when it can be reached.  The
    result is the exit status of the process and the table left behind;
    an exception that leaves [main] ends the process with status 1, and the
    connection it drops takes the open transaction with it. *)
Definition main (db : option Table) (csv_file : option (list CsvRow))
           (current_timestamp : Z) : Z * option Table :=
  match db with
  | None => (1, None)
  | Some tbl =>
      let conn := commit (connect tbl) in        (* create_raw_yolo_table *)
      match csv_file with
      | Some _ =>
          match load_yolo_results conn csv_file current_timestamp with
          | (Returned _, conn') => (0, Some (committed conn'))
          | (Raised, conn') => (1, Some (committed conn'))
          end
      | None => (0, Some (committed conn))
      end
  end.
End WithBuiltins.

(** *** Vocabulary of the specification *)

(** The table that holds exactly the rows of a snapshot. *)
Definition snapshot (current_timestamp : Z) (rows : list InsertTuple) : Table :=
  foldl (put key_of (row_of current_timestamp)) ∅ rows.

(** What the loader has to make of one line of the file: the id and the
    count as [int] reads them and the confidence as [float] reads it, with 0
    for an empty count and 0.0 for an empty confidence; the channel, the
    path and the category as they stand; the classes, the top class and the
    confidences as they stand, and null when empty. *)
Definition reads_as (py_int : string → option Z)
           (py_float : string → option pyfloat)
           (line : CsvRow) (t : InsertTuple) : Prop :=
  py_int (c_message_id line) = Some (t_message_id t) ∧
  t_channel_name t = c_channel_name line ∧
  t_image_path t = c_image_path line ∧
  (if String.eqb (c_detected_objects_count line) ""
   then t_detected_objects_count t = 0
   else py_int (c_detected_objects_count line)
        = Some (t_detected_objects_count t)) ∧
  t_detected_classes t
  = (if String.eqb (c_detected_classes line) "" then None
     else Some (c_detected_classes line)) ∧
  t_top_detected_class t
  = (if String.eqb (c_top_detected_class line) "" then None
     else Some (c_top_detected_class line)) ∧
  (if String.eqb (c_top_confidence line) ""
   then t_top_confidence t = 0%float
   else py_float (c_top_confidence line) = Some (t_top_confidence t)) ∧
  t_image_category t = c_image_category line ∧
  t_all_confidences t
  = (if String.eqb (c_all_confidences line) "" then None
     else Some (c_all_confidences line)).

(** The claim of C6 on a failed load: the table is left empty. *)
Definition failed_load_leaves_empty
           (py_int : string → option Z) (py_float : string → option pyfloat)
  : Prop :=
  ∀ (conn : connection Table) lines now,
    (load_yolo_results py_int py_float conn (Some lines) now).1 = Raised →
    committed (load_yolo_results py_int py_float conn (Some lines) now).2 = ∅.

(** *** Sample inputs *)

(** Decimal digits to a number. *)
Fixpoint digits (s : string) (acc : Z) : option Z :=
  match s with
  | EmptyString => Some acc
  | String c rest =>
      let n := Z.of_nat (nat_of_ascii c) in
      if (48 <=? n) && (n <=? 57) then digits rest (10 * acc + (n - 48))
      else None
  end.

(** [int] on the plain decimal numerals that [yolo_detect.py] writes. *)
Definition dec_int (s : string) : option Z :=
  match s with
  | EmptyString => None
  | String "-"%char rest =>
      if String.eqb rest "" then None else Z.opp <$> digits rest 0
  | _ => digits s 0
  end.

(** [float] on the three numerals of the sample rows. *)
Definition sample_float (s : string) : option pyfloat :=
  if String.eqb s "0.0" then Some 0%float
  else if String.eqb s "0.5" then Some 0.5%float
  else if String.eqb s "0.75" then Some 0.75%float
  else None.

Definition csv_row (id : string) (category : string) : CsvRow :=
  {| c_message_id := id; c_channel_name := "chan";
     c_image_path := "data/raw/images/chan/" +:+ id +:+ ".jpg";
     c_detected_objects_count := "1"; c_detected_classes := "39";
     c_top_detected_class := "bottle"; c_top_confidence := "0.75";
     c_image_category := category; c_all_confidences := "{39: 0.75}" |}.

(** A category of 51 characters, one more than [VARCHAR(50)] holds. *)
Definition long_category : string :=
  "product_display_product_display_product_display_xyz".

(** The table left by an earlier run: one row, loaded at time 1000. *)
Definition old_table : Table :=
  {[ (1, "chan"%string) :=
       {| image_path := "data/raw/images/chan/1.jpg";
          detected_objects_count := 1; detected_classes := Some "0"%string;
          top_detected_class := Some "person"%string;
          top_confidence := 0.5%float; image_category := "lifestyle";
          all_confidences := Some "{0: 0.5}"%string; loaded_at := 1000 |} ]}.

(** A snapshot whose second row the server rejects. *)
Definition half_bad_csv : list CsvRow :=
  [csv_row "2" "product_display"; csv_row "3" long_category].

End DetectionLoader.

(** * The detection run ([src/yolo_detect.py], from the images to the CSV) *)

Module YoloRun.
Import Yolo.

(** What the code reads of the [Path] of an image. *)
Record ImagePath := mkImagePath {
  parent_name : string;      (* [image_path.parent.name] *)
  stem : string;             (* [image_path.stem] *)
  suffix : string;           (* [image_path.suffix] *)
  relative_to_base : string  (* [str(image_path.relative_to(BASE_DIR))] *)
}.

(** One entry of [images_dir.iterdir()]: whether it is a directory, and what
    its own [iterdir()] yields. *)
Record DirEntry := mkDirEntry {
  is_dir : bool;
  entries : list ImagePath
}.

Definition image_extensions : list string :=
  [".jpg"; ".jpeg"; ".png"; ".JPG"; ".JPEG"; ".PNG"]%string.

(** [images_dir] is [None] when the directory does not exist. *)
Definition find_all_images (images_dir : option (list DirEntry))
  : list ImagePath :=
  match images_dir with
  | None => []
  | Some channel_dirs =>
      channel_dir ← channel_dirs;
      if is_dir channel_dir
      then filter (fun image_file => suffix image_file ∈ image_extensions)
                  (entries channel_dir)
      else []
  end.

(** The dict that [process_image] returns. *)
Record Result := mkResult {
  message_id : Z;
  channel_name : string;
  image_path : string;
  detected_objects_count : nat;
  detected_classes : string;
  top_detected_class : option string;
  top_confidence : pyfloat;
  image_category : string;
  all_confidences : string
}.

Definition category_name (c : Category) : string :=
  match c with
  | promotional => "promotional"
  | product_display => "product_display"
  | lifestyle => "lifestyle"
  | other => "other"
  end.

(** [d[k] = v] on the items of a dict, which keep the order in which the
    keys were first stored. *)
Fixpoint dict_set (items : list (Z * pyfloat)) (k : Z) (v : pyfloat)
  : list (Z * pyfloat) :=
  match items with
  | [] => [(k, v)]
  | (k', v') :: rest =>
      if k' =? k then (k', v) :: rest else (k', v') :: dict_set rest k v
  end.

(** The items of [class_confidences], in the order [str] prints them. *)
Definition dict_items (detections : list Detection) : list (Z * pyfloat) :=
  foldl (fun items d => dict_set items (d_class d) (d_confidence d))
        [] detections.

Section WithBuiltins.
(** [int] on a string, [None] when it raises; [str] on an int, on a float
    and on a dict of floats. *)
Variable py_int : string → option Z.
Variable str_int : Z → string.
Variable str_float : pyfloat → string.
Variable str_dict : list (Z * pyfloat) → string.
(** The model on an image: the detections read off its boxes, or [None]
    when the call raises. *)
Variable model : ImagePath → option (list Detection).

Definition extract_message_id_from_path (image_path : ImagePath) : option Z :=
  py_int (stem image_path).

Definition extract_channel_from_path (image_path : ImagePath) : option string :=
  Some (parent_name image_path).

Definition process_image (image_path : ImagePath) : option Result :=
  match extract_message_id_from_path image_path,
        extract_channel_from_path image_path with
  | Some message_id, Some channel_name =>
      match model image_path with
      | Some detections =>
          let summary := Yolo.process_image detections in
          Some {| message_id := message_id;
                  channel_name := channel_name;
                  image_path := relative_to_base image_path;
                  detected_objects_count := length detections;
                  detected_classes :=
                    String.concat "," (str_int ∘ d_class <$> detections);
                  top_detected_class := Yolo.top_detected_class summary;
                  top_confidence := Yolo.top_confidence summary;
                  image_category := category_name (Yolo.image_category summary);
                  all_confidences := str_dict (dict_items detections) |}
      | None => None
      end
  | _, _ => None
  end.

(** The row [csv.DictWriter] writes for a result: [str] of every value,
    and the empty string for [None]. *)
Definition csv_cells (r : Result) : DetectionLoader.CsvRow :=
  {| DetectionLoader.c_message_id := str_int (message_id r);
     DetectionLoader.c_channel_name := channel_name r;
     DetectionLoader.c_image_path := image_path r;
     DetectionLoader.c_detected_objects_count :=
       str_int (Z.of_nat (detected_objects_count r));
     DetectionLoader.c_detected_classes := detected_classes r;
     DetectionLoader.c_top_detected_class :=
       default ""%string (top_detected_class r);
     DetectionLoader.c_top_confidence := str_float (top_confidence r);
     DetectionLoader.c_image_category := image_category r;
     DetectionLoader.c_all_confidences := all_confidences r |}.

(** [output_file] is the content of the CSV file, [None] when there is no
    file; the result is its content afterwards. *)
Definition save_results_to_csv (results : list Result)
           (output_file : option (list DetectionLoader.CsvRow))
  : option (list DetectionLoader.CsvRow) :=
  match results with
  | [] => output_file
  | _ => Some (csv_cells <$> results)
  end.

(** What [main] leaves: the CSV file and the two counts it logs. *)
Record RunSummary := mkRunSummary {
  output_file : option (list DetectionLoader.CsvRow);
  processed_count : nat;
  error_count : nat
}.

(** The loop of [main] over the images. *)
Fixpoint process_all (images : list ImagePath) (results : list Result)
         (processed_count error_count : nat)
  : list Result * nat * nat :=
  match images with
  | [] => (results, processed_count, error_count)
  | image_path :: rest =>
      match process_image image_path with
      | Some result =>
          process_all rest (results ++ [result]) (S processed_count)
                      error_count
      | None => process_all rest results processed_count (S error_count)
      end
  end.

(** [model_loads] tells whether [YOLO(YOLO_MODEL)] returns. *)
Definition main (model_loads : bool) (images_dir : option (list DirEntry))
           (csv : option (list DetectionLoader.CsvRow)) : RunSummary :=
  if model_loads then
    match find_all_images images_dir with
    | [] => mkRunSummary csv 0 0
    | images =>
        let '(results, processed_count, error_count) :=
          process_all images [] 0 0 in
        mkRunSummary (save_results_to_csv results csv)
                     processed_count error_count
    end
  else mkRunSummary csv 0 0.
End WithBuiltins.

(** *** Vocabulary of the specification *)

(** The tuple that the detection loader should read back for a result. *)
Definition tuple_of (r : Result) : DetectionLoader.InsertTuple :=
  {| DetectionLoader.t_message_id := message_id r;
     DetectionLoader.t_channel_name := channel_name r;
     DetectionLoader.t_image_path := image_path r;
     DetectionLoader.t_detected_objects_count :=
       Z.of_nat (detected_objects_count r);
     DetectionLoader.t_detected_classes :=
       DetectionLoader.or_None (detected_classes r);
     DetectionLoader.t_top_detected_class := top_detected_class r;
     DetectionLoader.t_top_confidence := top_confidence r;
     DetectionLoader.t_image_category := image_category r;
     DetectionLoader.t_all_confidences := Some (all_confidences r) |}.

(** The numbers of a result survive [str] followed by [int] or [float],
    as Python's do, and no text of it that has to be read back is empty. *)
Definition reads_back (py_int : string → option Z)
           (py_float : string → option pyfloat)
           (str_int : Z → string) (str_float : pyfloat → string)
           (r : Result) : Prop :=
  py_int (str_int (message_id r)) = Some (message_id r) ∧
  py_int (str_int (Z.of_nat (detected_objects_count r)))
  = Some (Z.of_nat (detected_objects_count r)) ∧
  str_int (Z.of_nat (detected_objects_count r)) ≠ ""%string ∧
  py_float (str_float (top_confidence r)) = Some (top_confidence r) ∧
  str_float (top_confidence r) ≠ ""%string ∧
  top_detected_class r ≠ Some ""%string ∧
  all_confidences r ≠ ""%string.

(** *** Sample inputs *)

Definition sample_str_int (n : Z) : string :=
  if n =? 0 then "0" else if n =? 1 then "1" else if n =? 2 then "2"
  else if n =? 7 then "7" else "many".

Definition sample_str_float (f : pyfloat) : string :=
  if PrimFloat.eqb f 0.5 then "0.5"
  else if PrimFloat.eqb f 0.75 then "0.75" else "0.0".

Definition sample_str_dict (items : list (Z * pyfloat)) : string :=
  match items with [] => "{}" | _ => "{...}" end.

Definition sample_image (channel id ext : string) : ImagePath :=
  {| parent_name := channel; stem := id; suffix := ext;
     relative_to_base := "data/raw/images/" +:+ channel +:+ "/" +:+ id +:+ ext |}.

(** A model that sees a person with a bottle on image 7, nothing on image
    2, and raises on every other image. *)
Definition sample_model (p : ImagePath) : option (list Detection) :=
  if String.eqb (stem p) "7" then Some [person 0.75; bottle 0.5]
  else if String.eqb (stem p) "2" then Some []
  else None.

Definition sample_dir : option (list DirEntry) :=
  Some [ {| is_dir := true;
            entries := [sample_image "chan" "7" ".jpg";
                        sample_image "chan" "notes" ".txt";
                        sample_image "chan" "cover" ".png";
                        sample_image "chan" "2" ".jpg"] |};
         {| is_dir := false; entries := [] |} ].

End YoloRun.

(** * The scraper ([src/scraper.py], from a Telegram message to the JSON
      record) *)

Module Scraper.
Import RawLoader.

(** What the code reads of a Telethon message.  [media] tells whether the
    message has a [media] attribute that is not [None]; a missing [views] or
    [forwards] attribute and one that is [None] are both [None]. *)
Record TelegramMessage := mkTelegramMessage {
  id : Z;
  date : option Timestamp;
  text : option string;
  media : bool;
  views : option Z;
  forwards : option Z
}.

(** [channel_name.lstrip('@')]. *)
Fixpoint lstrip_at (s : string) : string :=
  match s with
  | String c rest => if Ascii.eqb c "@"%char then lstrip_at rest else s
  | EmptyString => EmptyString
  end.

(** Does the string hold the letter [Z]? *)
Fixpoint has_Z (s : string) : bool :=
  match s with
  | EmptyString => false
  | String c rest => Ascii.eqb c "Z"%char || has_Z rest
  end.

Section WithDatetime.
(** [datetime.isoformat]. *)
Variable isoformat : Timestamp → string.

Definition extract_message_data (message : TelegramMessage)
           (channel_name : string) : Message :=
  {| m_message_id := Some (id message);
     m_channel_name := Some channel_name;
     m_message_date := isoformat <$> date message;
     m_message_text :=
       Some (match truthy (text message) with Some t => t | None => "" end);
     m_has_media := Some (Some (media message));
     m_image_path := None;
     m_views := views message;
     m_forwards := forwards message |}.

(** The body of the loop of [scrape_channel] for one message;
    [downloaded] is what [download_image] returns for it. *)
Definition scraped_message (message : TelegramMessage) (channel_name : string)
           (downloaded : option string) : Message :=
  let message_data := extract_message_data message channel_name in
  match truthy downloaded with
  | Some image_path =>
      {| m_message_id := m_message_id message_data;
         m_channel_name := m_channel_name message_data;
         m_message_date := m_message_date message_data;
         m_message_text := m_message_text message_data;
         m_has_media := m_has_media message_data;
         m_image_path := Some image_path;
         m_views := m_views message_data;
         m_forwards := m_forwards message_data |}
  | None => message_data
  end.

(** [connected] tells whether the client is connected; [feed] is [None]
    when the channel cannot be opened, and otherwise the messages of the
    channel, each with what [download_image] returns for it, or with [None]
    when handling the message raises. *)
Definition scrape_channel (connected : bool) (channel_name : string)
           (feed : option (list (TelegramMessage * option (option string))))
  : list Message :=
  if connected then
    let channel_name := lstrip_at channel_name in
    match feed with
    | Some messages =>
        omap (fun '(message, handled) =>
                scraped_message message channel_name <$> handled) messages
    | None => []
    end
  else [].
End WithDatetime.

(** *** Sample inputs *)

(** A printer and a reader of dates that agree on one instant. *)
Definition sample_isoformat (d : Timestamp) : string :=
  "2024-01-05T10:00:00+00:00".

Definition sample_fromisoformat (s : string) : option Timestamp :=
  if String.eqb s "2024-01-05T10:00:00+00:00" then Some 1704448800000000
  else None.

Definition sample_message : TelegramMessage :=
  {| id := 7; date := Some 1704448800000000; text := None; media := true;
     views := Some 120; forwards := None |}.

End Scraper.

(** * The pipeline stages ([pipeline.py]) *)

Module Pipeline.

(** [subprocess.CompletedProcess], with the captured text. *)
Record CompletedProcess := mkCompleted {
  returncode : Z;
  stdout : string;
  stderr : string
}.

(** What [subprocess.run] meets: the program runs to an exit status, or it
    cannot be started and [run] raises [OSError]. *)
Inductive Run :=
| Exited (p : CompletedProcess)
| NotStarted.

(** [subprocess.run(..., check=True)]: [None] when it raises, which it
    also does, with [CalledProcessError], on a status other than 0. *)
Definition run_checked (r : Run) : option CompletedProcess :=
  match r with
  | Exited p => if returncode p =? 0 then Some p else None
  | NotStarted => None
  end.

(** [subprocess.run(...)] without [check]. *)
Definition run_unchecked (r : Run) : option CompletedProcess :=
  match r with
  | Exited p => Some p
  | NotStarted => None
  end.

(** [s[-n:]] for a positive [n]. *)
Definition last_chars (n : nat) (s : string) : string :=
  substring (String.length s - n) n s.

Record AssetMaterialization := mkAssetMaterialization {
  asset_key : string;
  description : string;
  metadata : list (string * string)
}.

(** One attempt of an op: it returns its value after logging its events, or
    it raises. *)
Inductive OpResult :=
| Succeeded (value : string) (events : list AssetMaterialization)
| Failed.

(** Op 2.  [loader] is the run of [scripts/load_to_postgres.py]. *)
Definition load_raw_to_postgres (loader : Run) : OpResult :=
  match run_checked loader with
  | Some result =>
      Succeeded "loading_success"
        [ {| asset_key := "raw_postgres_data";
             description := "Raw data loaded into PostgreSQL";
             metadata := [("loader_output", last_chars 500 (stdout result));
                          ("status", "success")]%string |} ]
  | None => Failed
  end.

(** Op 3.  [dbt_run] is the run of [dbt run], [dbt_test] that of [dbt test],
    which is started only after [dbt run] has passed the check. *)
Definition run_dbt_transformations (dbt_run dbt_test : Run) : OpResult :=
  match run_checked dbt_run with
  | Some result =>
      match run_unchecked dbt_test with
      | Some test_result =>
          let test_status :=
            if returncode test_result =? 0 then "passed" else "failed" in
          Succeeded "dbt_success"
            [ {| asset_key := "dbt_marts";
                 description := "dbt models built successfully";
                 metadata := [("dbt_output", last_chars 500 (stdout result));
                              ("test_status", test_status);
                              ("status", "success")]%string |} ]
      | None => Failed
      end
  | None => Failed
  end.

(** Op 5.  [loader] is the run of [scripts/load_yolo_results.py],
    [dbt_result] that of [dbt run --select fct_image_detections], which is
    started only after the loader has passed the check. *)
Definition load_yolo_results (loader dbt_result : Run) : OpResult :=
  match run_checked loader with
  | Some result =>
      match run_unchecked dbt_result with
      | Some _ =>
          Succeeded "yolo_loading_success"
            [ {| asset_key := "yolo_postgres_data";
                 description := "YOLO detection results loaded and integrated";
                 metadata := [("loader_output", last_chars 500 (stdout result));
                              ("status", "success")]%string |} ]
      | None => Failed
      end
  | None => Failed
  end.

(** Op 1.  [scraper] is the run of [src/scraper.py]. *)
Definition scrape_telegram_data (scraper : Run) : OpResult :=
  match run_checked scraper with
  | Some result =>
      Succeeded "scraping_success"
        [ {| asset_key := "telegram_data";
             description := "Raw Telegram messages and images downloaded";
             metadata := [("scraper_output", last_chars 500 (stdout result));
                          ("status", "success")]%string |} ]
  | None => Failed
  end.

(** Op 4.  [yolo] is the run of [src/yolo_detect.py]. *)
Definition run_yolo_enrichment (yolo : Run) : OpResult :=
  match run_checked yolo with
  | Some result =>
      Succeeded "yolo_success"
        [ {| asset_key := "yolo_detections";
             description := "YOLO object detection results generated";
             metadata := [("yolo_output", last_chars 500 (stdout result));
                          ("status", "success")]%string |} ]
  | None => Failed
  end.

Definition started (r : Run) : bool :=
  match r with Exited _ => true | NotStarted => false end.

(** What every attempt of an op that runs [primary] with [check=True]
    and then, for some ops, [secondary] without it, has to look like: it
    fails exactly when [primary] does not end with status 0 or one of the
    programs cannot be started, and otherwise logs one materialization whose
    metadata ends with the status ["success"] and holds no value longer
    than 500 characters. *)
Definition attempt_as_expected (secondary_started : bool) (primary : Run)
           (r : OpResult) : Prop :=
  match r with
  | Failed => run_checked primary = None ∨ secondary_started = false
  | Succeeded _ events =>
      is_Some (run_checked primary) ∧ secondary_started = true ∧
      ∃ event, events = [event] ∧
               last (metadata event) = Some ("status", "success")%string ∧
               Forall (fun kv => (String.length kv.2 ≤ 500)%nat)
                      (metadata event)
  end.

(** The run of a loader script whose [main] ends with [status]. *)
Definition script_run (status : Z) (out err : string) : Run :=
  Exited {| returncode := status; stdout := out; stderr := err |}.

End Pipeline.

(** * Properties *)

(** ** The classifier *)

Module YoloFacts.
Import Yolo.

Lemma py_in_true (x : Z) (D : list Detection) :
  py_in x (map d_class D) = true ↔ ∃ d, d ∈ D ∧ d_class d = x.
Proof.
  unfold py_in. rewrite existsb_exists. split.
  - intros (c & Hc & Heq). apply in_map_iff in Hc as (d & <- & Hd).
    exists d. split; [by apply list_elem_of_In | symmetry; by apply Z.eqb_eq].
  - intros (d & Hd & <-). exists (d_class d). split; [| apply Z.eqb_refl].
    apply in_map. by apply list_elem_of_In.
Qed.

Lemma has_person_reflect (D : list Detection) :
  py_in PERSON_CLASS (map d_class D) = true ↔ has_subject D.
Proof. apply py_in_true. Qed.

Lemma has_product_reflect (D : list Detection) :
  existsb (fun cls => py_in cls (map d_class D))
          [BOTTLE_CLASS; CUP_CLASS; BOWL_CLASS] = true ↔ has_object D.
Proof.
  cbn [existsb]. rewrite !orb_true_iff, !py_in_true. unfold has_object. split.
  - intros [(d & ? & ?) | [(d & ? & ?) | [(d & ? & ?) | ?]]];
      [exists d; tauto .. | done].
  - intros (d & Hd & [H | [H | H]]); eauto 8.
Qed.

(** The scenario of the specification, with confidences that are exact in
    binary. *)
Example classify_person_with_bottle :
  classify_image [person 0.75; bottle 0.5]
  = (promotional, {[ 0 := 0.75%float; 39 := 0.5%float ]}).
Proof. by vm_compute. Qed.

Example top_detection_first_of_equals :
  top_detection [cat 0.5; person 0.75; bottle 0.75] = Some (person 0.75).
Proof. reflexivity. Qed.

(** C1. For every detection sequence [D], [classify_image] answers
    [promotional] when [D] holds a person detection and a detection of a
    bottle, cup or bowl; [product_display] when it holds one of the latter and
    no person; [lifestyle] when it holds a person and none of the objects;
    [other] when it holds neither.  On the empty sequence the category is
    [other], the confidence map is empty, and the row's top confidence is
    [0.0]. *)
Theorem classify_image_decision_table (D : list Detection) :
  (has_subject D ∧ has_object D → (classify_image D).1 = promotional) ∧
  (has_object D ∧ ¬ has_subject D → (classify_image D).1 = product_display) ∧
  (has_subject D ∧ ¬ has_object D → (classify_image D).1 = lifestyle) ∧
  (¬ has_subject D ∧ ¬ has_object D → (classify_image D).1 = other) ∧
  classify_image [] = (other, ∅) ∧
  top_confidence (process_image []) = 0%float.
Proof.
  pose proof (has_person_reflect D) as Hp.
  pose proof (has_product_reflect D) as Ho.
  unfold classify_image. cbn [fst].
  destruct (py_in PERSON_CLASS (map d_class D));
    destruct (existsb _ [BOTTLE_CLASS; CUP_CLASS; BOWL_CLASS]); cbn;
    repeat split; try reflexivity; intros [H1 H2];
    repeat match goal with
           | H : ¬ _ |- _ => exfalso; apply H; tauto
           | H : has_subject D |- _ => apply Hp in H; discriminate
           | H : has_object D |- _ => apply Ho in H; discriminate
           end.
Qed.

Lemma classify_image_decision_table_witness :
  (classify_image [person 0.75; bottle 0.5]).1 = promotional ∧
  (classify_image [bottle 0.5; cat 0.25]).1 = product_display ∧
  (classify_image [cat 0.25; person 0.75]).1 = lifestyle ∧
  (classify_image [cat 0.25]).1 = other.
Proof.
  split; [| split; [| split]].
  - apply (classify_image_decision_table [person 0.75; bottle 0.5]). split.
    + exists (person 0.75). split; [left | reflexivity].
    + exists (bottle 0.5). split; [right; left | left; reflexivity].
  - apply (classify_image_decision_table [bottle 0.5; cat 0.25]). split.
    + exists (bottle 0.5). split; [left | left; reflexivity].
    + intros Hs. apply has_person_reflect in Hs. vm_compute in Hs. discriminate.
  - apply (classify_image_decision_table [cat 0.25; person 0.75]). split.
    + exists (person 0.75). split; [right; left | reflexivity].
    + intros Hs. apply has_product_reflect in Hs. vm_compute in Hs. discriminate.
  - apply (classify_image_decision_table [cat 0.25]). split.
    + intros Hs. apply has_person_reflect in Hs. vm_compute in Hs. discriminate.
    + intros Hs. apply has_product_reflect in Hs. vm_compute in Hs. discriminate.
Defined.

Lemma dict_comprehension_snoc (D : list Detection) (d : Detection) :
  dict_comprehension (D ++ [d]) = <[d_class d := d_confidence d]> (dict_comprehension D).
Proof. unfold dict_comprehension. by rewrite foldl_app. Qed.

Lemma dict_comprehension_lookup (D : list Detection) (c : Z) :
  dict_comprehension D !! c = d_confidence <$> last (of_class c D).
Proof.
  induction D as [| d D IH] using rev_ind; [done |].
  rewrite dict_comprehension_snoc. unfold of_class in *.
  rewrite filter_app, filter_cons, filter_nil.
  destruct (decide (d_class d = c)) as [<- | Hne].
  - by rewrite lookup_insert_eq, last_snoc.
  - by rewrite lookup_insert_ne, app_nil_r.
Qed.

(** The claim of C2 fails on two detections of one class in decreasing order
    of confidence: the map holds the later, smaller confidence. *)
Lemma confidence_map_not_max :
  (classify_image two_persons).2 !! 0 = Some 0.5%float ∧
  0 ∈ map d_class two_persons ∧
  ¬ (∃ v, (classify_image two_persons).2 !! 0 = Some v ∧
          is_max_confidence two_persons 0 v).
Proof.
  assert (Hm : (classify_image two_persons).2 !! 0 = Some 0.5%float)
    by (vm_compute; reflexivity).
  split; [exact Hm |]. split; [left |].
  intros (v & Hv & _ & Hle). rewrite Hm in Hv. injection Hv as <-.
  specialize (Hle (person 0.75)). cbn in Hle.
  assert (PrimFloat.leb 0.75 0.5 = true) as Habs
    by (apply Hle; [left | reflexivity]).
  vm_compute in Habs. discriminate.
Qed.

(** C2, amended. For every detection sequence [D] and every class id [c],
    the confidence map returned by [classify_image] maps [c] to the
    confidence of the last detection of class [c] in [D] (and has no entry
    for a class that does not occur). *)
Theorem confidence_map_last_wins (D : list Detection) (c : Z) :
  (classify_image D).2 !! c = d_confidence <$> last (of_class c D).
Proof. apply dict_comprehension_lookup. Qed.

(** *** More on the classifier *)

Lemma dict_comprehension_is_Some (D : list Detection) (c : Z) :
  is_Some (dict_comprehension D !! c) ↔ c ∈ d_class <$> D.
Proof.
  rewrite dict_comprehension_lookup, fmap_is_Some, last_is_Some.
  rewrite list_elem_of_fmap. unfold of_class. split.
  - intros Hne. destruct (filter _ D) as [| d l] eqn:Hf; [done |].
    assert (d ∈ filter (fun d => d_class d = c) D) as Hd by (rewrite Hf; left).
    apply list_elem_of_filter in Hd as [Hc Hd]. eauto.
  - intros (d & -> & Hd) Hnil. by apply (filter_nil_not_elem_of _ _ d) in Hnil.
Qed.

Lemma dict_comprehension_size (D : list Detection) :
  (size (dict_comprehension D) ≤ length D)%nat.
Proof.
  induction D as [| d D IH] using rev_ind; [done |].
  rewrite dict_comprehension_snoc, length_app, map_size_insert. cbn.
  destruct (dict_comprehension D !! d_class d); unfold id; lia.
Qed.

(** X1. The confidence map has an entry for exactly the classes that were
    detected, so it never has more entries than there are detections. *)
Theorem confidence_map_keys (D : list Detection) :
  dom (classify_image D).2 = list_to_set (d_class <$> D) ∧
  (size (classify_image D).2 ≤ length D)%nat.
Proof.
  split; [| apply dict_comprehension_size].
  apply set_eq. intros c.
  rewrite elem_of_dom, elem_of_list_to_set. apply dict_comprehension_is_Some.
Qed.

Lemma py_in_elem_of (x : Z) (l : list Z) : py_in x l = true ↔ x ∈ l.
Proof.
  unfold py_in. rewrite existsb_exists, list_elem_of_In. split.
  - intros (y & Hy & Heq). apply Z.eqb_eq in Heq. by subst.
  - intros Hx. exists x. split; [done | apply Z.eqb_refl].
Qed.

Lemma py_in_same_elements (x : Z) (l l' : list Z) :
  (∀ c, c ∈ l ↔ c ∈ l') → py_in x l = py_in x l'.
Proof.
  intros Hsame. pose proof (py_in_elem_of x l) as H1.
  pose proof (py_in_elem_of x l') as H2. specialize (Hsame x).
  destruct (py_in x l), (py_in x l'); try done.
  - symmetry. tauto.
  - tauto.
Qed.

(** X2. The category depends on nothing but the set of detected classes: two
    detection lists with the same classes, in whatever order, number and
    confidence, get the same category. *)
Theorem category_of_class_set (D D' : list Detection) :
  (∀ c, c ∈ d_class <$> D ↔ c ∈ d_class <$> D') →
  (classify_image D).1 = (classify_image D').1.
Proof.
  intros Hsame. unfold classify_image. cbn [fst existsb].
  change (map d_class D) with (d_class <$> D).
  change (map d_class D') with (d_class <$> D').
  by rewrite !(py_in_same_elements _ _ _ Hsame).
Qed.

Lemma category_of_class_set_witness :
  (classify_image [person 0.75; bottle 0.5]).1
  = (classify_image [bottle 0.25; bottle 0.5; person 0.5]).1.
Proof.
  apply category_of_class_set. intros c. cbn.
  rewrite !elem_of_cons, !elem_of_nil. tauto.
Defined.

(** [<] on floats is a strict order. *)
Lemma SFltb_irrefl (x : spec_float) : SFltb x x = false.
Proof.
  unfold SFltb, SFcompare.
  destruct x as [s | s | | s m e]; try destruct s; try reflexivity;
    rewrite Z.compare_refl;
    change (Pos.compare_cont Eq m m) with (Pos.compare m m);
    by rewrite Pos.compare_refl.
Qed.

Lemma SFltb_trans (x y z : spec_float) :
  SFltb x y = true → SFltb y z = true → SFltb x z = true.
Proof.
  unfold SFltb, SFcompare.
  destruct x as [s1 | s1 | | s1 m1 e1], y as [s2 | s2 | | s2 m2 e2],
           z as [s3 | s3 | | s3 m3 e3];
    try destruct s1; try destruct s2; try destruct s3;
    try discriminate; try reflexivity;
    change (Pos.compare_cont Eq) with Pos.compare;
    repeat match goal with
           | |- context [Z.compare ?a ?b] => destruct (Z.compare_spec a b)
           | |- context [Pos.compare ?a ?b] => destruct (Pos.compare_spec a b)
           end; cbn; try discriminate; try reflexivity; intros; exfalso; lia.
Qed.

Lemma float_ltb_irrefl (x : pyfloat) : PrimFloat.ltb x x = false.
Proof. rewrite ltb_spec. apply SFltb_irrefl. Qed.

Lemma float_ltb_trans (x y z : pyfloat) :
  PrimFloat.ltb x y = true → PrimFloat.ltb y z = true →
  PrimFloat.ltb x z = true.
Proof. rewrite !ltb_spec. apply SFltb_trans. Qed.

Lemma max_by_confidence_spec (rest : list Detection) (d0 : Detection) :
  max_by_confidence d0 rest ∈ d0 :: rest ∧
  ∀ d, d ∈ d0 :: rest →
       PrimFloat.ltb (d_confidence (max_by_confidence d0 rest))
                     (d_confidence d) = false.
Proof.
  unfold max_by_confidence.
  induction rest as [| x rest IH] using rev_ind.
  - cbn. split; [left |]. intros d ->%list_elem_of_singleton.
    apply float_ltb_irrefl.
  - rewrite foldl_app. cbn [foldl]. destruct IH as [Hin Hmax].
    set (best := foldl _ d0 rest) in *.
    destruct (PrimFloat.ltb (d_confidence best) (d_confidence x)) eqn:Hlt.
    + split; [rewrite app_comm_cons; apply elem_of_app; right; left |].
      intros d Hd. rewrite app_comm_cons in Hd.
      apply elem_of_app in Hd as [Hd | ->%list_elem_of_singleton];
        [| apply float_ltb_irrefl].
      destruct (PrimFloat.ltb (d_confidence x) (d_confidence d)) eqn:Hxd;
        [| done].
      pose proof (Hmax d Hd) as Hbd.
      by rewrite (float_ltb_trans _ _ _ Hlt Hxd) in Hbd.
    + split; [rewrite app_comm_cons; apply elem_of_app; by left |].
      intros d Hd. rewrite app_comm_cons in Hd.
      apply elem_of_app in Hd as [Hd | ->%list_elem_of_singleton];
        [by apply Hmax | done].
Qed.

(** X3. [process_image] reports no top class exactly when nothing was detected;
    otherwise the top class and the top confidence are those of one of the
    detections, and no detection has a confidence greater than the top
    confidence. *)
Theorem top_confidence_is_maximal (D : list Detection) :
  (top_detected_class (process_image D) = None ↔ D = []) ∧
  (D ≠ [] →
   ∃ t, t ∈ D ∧
        top_detected_class (process_image D) = Some (d_class_name t) ∧
        top_confidence (process_image D) = d_confidence t ∧
        ∀ d, d ∈ D →
             PrimFloat.ltb (top_confidence (process_image D))
                           (d_confidence d) = false).
Proof.
  destruct D as [| d0 rest]; [done |].
  split; [done |]. intros _.
  destruct (max_by_confidence_spec rest d0) as [Hin Hmax].
  exists (max_by_confidence d0 rest). by repeat split.
Qed.

Lemma top_confidence_is_maximal_witness :
  top_detected_class (process_image [cat 0.5; person 0.75; bottle 0.25])
  = Some "person"%string ∧
  PrimFloat.ltb
    (top_confidence (process_image [cat 0.5; person 0.75; bottle 0.25]))
    0.5 = false.
Proof.
  destruct (top_confidence_is_maximal [cat 0.5; person 0.75; bottle 0.25])
    as [_ H].
  destruct H as (t & _ & _ & _ & Hmax); [done |].
  split; [reflexivity |]. apply (Hmax (cat 0.5)). left.
Defined.

End YoloFacts.

(** ** The database session *)

Module DbFacts.
Import Db.

(** *** Left folds of inserts *)

Section FoldInsert.
Context {K : Type} `{Countable K} {V A : Type}.
Variables (key : A → K) (val : A → V).

(** After the inserts, a key holds the value of the last element that
    carries it, and its old value when no element does. *)
Lemma foldl_put_lookup (l : list A) (m : gmap K V) (k : K) :
  foldl (put key val) m l !! k =
  match last (filter (fun a => key a = k) l) with
  | Some a => Some (val a)
  | None => m !! k
  end.
Proof.
  induction l as [| a l IH] using rev_ind; [done |].
  rewrite foldl_app, filter_app, filter_cons, filter_nil. cbn [foldl].
  unfold put at 1. destruct (decide (key a = k)) as [<- | Hne].
  - by rewrite lookup_insert_eq, last_snoc.
  - by rewrite lookup_insert_ne, app_nil_r.
Qed.

(** Dropping part of the stored values commutes with the inserts. *)
Lemma foldl_put_fmap {W : Type} (g : V → W) (l : list A) (m : gmap K V) :
  g <$> foldl (put key val) m l =
  foldl (fun (m' : gmap K W) kv => <[kv.1 := kv.2]> m') (g <$> m)
        ((fun a => (key a, g (val a))) <$> l).
Proof.
  revert m. induction l as [| a l IH]; intros m; cbn; [done |].
  rewrite IH. unfold put. by rewrite fmap_insert.
Qed.
End FoldInsert.

Lemma forallb_imap_ext {A B : Type} (p : B → bool) (f g : nat → A → B)
      (l : list A) :
  (∀ i x, p (f i x) = p (g i x)) →
  forallb p (imap f l) = forallb p (imap g l).
Proof.
  revert f g. induction l as [| x l IH]; intros f g Hfg; cbn; [done |].
  rewrite (Hfg 0%nat x). f_equal. apply IH. intros i y. apply (Hfg (S i)).
Qed.


Example paginate_with_rest :
  paginate 2 [1; 2; 3; 4; 5] = [[1; 2]; [3; 4]; [5]].
Proof. reflexivity. Qed.

Example paginate_without_rest : paginate 2 [1; 2; 3; 4] = [[1; 2]; [3; 4]].
Proof. reflexivity. Qed.

Section ExecuteBatchFacts.
Context {Tup Tbl : Type}.
Variable statement : Tup → Tbl → option Tbl.

Lemma paginate_from_concat (n : nat) (seq page : list Tup) (room : nat) :
  concat (paginate_from n page room seq) = page ++ seq.
Proof.
  revert page room. induction seq as [| x rest IH]; intros page room; cbn.
  - destruct page; cbn; by rewrite ?app_nil_r.
  - destruct room; cbn; rewrite IH; by rewrite <- ?app_assoc.
Qed.

(** The pages, put end to end, are the argument list. *)
Lemma paginate_concat (n : nat) (seq : list Tup) :
  concat (paginate (S n) seq) = seq.
Proof. apply paginate_from_concat. Qed.



Lemma execute_page_app (a b : list Tup) (tbl : Tbl) :
  execute_page statement (a ++ b) tbl =
  match execute_page statement a tbl with
  | (true, tbl') => execute_page statement b tbl'
  | (false, tbl') => (false, tbl')
  end.
Proof.
  revert tbl. induction a as [| t a IH]; intros tbl; cbn; [done |].
  destruct (statement t tbl); [apply IH | done].
Qed.

(** Sending the statements page by page is sending them one by one. *)
Lemma execute_pages_concat (pages : list (list Tup)) (tbl : Tbl) :
  execute_pages statement pages tbl =
  execute_page statement (concat pages) tbl.
Proof.
  revert tbl. induction pages as [| p pages IH]; intros tbl; cbn; [done |].
  rewrite execute_page_app.
  destruct (execute_page statement p tbl) as [[] tbl']; [apply IH | done].
Qed.

Lemma execute_batch_unpaged (n : nat) (args : list Tup) (c : connection Tbl) :
  execute_batch statement (S n) args c =
  (let '(ok, tbl) := execute_page statement args (session c) in
   (ok, mkConn (committed c) tbl)).
Proof.
  unfold execute_batch. by rewrite execute_pages_concat, paginate_concat.
Qed.

(** Statements of the shape "reject, or else write". *)
Variables (ok : Tup → bool) (write : Tbl → Tup → Tbl).
Hypothesis statement_shape :
  ∀ t tbl, statement t tbl = if ok t then Some (write tbl t) else None.

Lemma execute_page_accepted (l : list Tup) (tbl : Tbl) :
  forallb ok l = true →
  execute_page statement l tbl = (true, foldl write tbl l).
Proof.
  revert tbl. induction l as [| t l IH]; intros tbl Hall; cbn in *; [done |].
  apply andb_true_iff in Hall as [Ht Hl].
  rewrite statement_shape, Ht. by apply IH.
Qed.

Lemma execute_page_rejected (l : list Tup) (tbl : Tbl) :
  forallb ok l = false →
  (execute_page statement l tbl).1 = false.
Proof.
  revert tbl. induction l as [| t l IH]; intros tbl Hall; cbn in *; [done |].
  rewrite statement_shape. destruct (ok t); cbn in *; [by apply IH | done].
Qed.
End ExecuteBatchFacts.

(** *** More on left folds of inserts *)

Section FoldInsertMore.
Context {K : Type} `{Countable K} {V A : Type}.
Variables (key : A → K) (val : A → V).

(** The inserts add the keys of the list to the keys of the map. *)
Lemma foldl_put_dom (l : list A) (m : gmap K V) :
  dom (foldl (put key val) m l) = dom m ∪ list_to_set (key <$> l).
Proof.
  apply set_eq. intros k.
  rewrite elem_of_union, !elem_of_dom, elem_of_list_to_set, list_elem_of_fmap.
  rewrite (foldl_put_lookup key val). split.
  - destruct (last (filter _ l)) as [a |] eqn:Hlast; [| by left].
    intros _. right. exists a.
    apply last_Some_elem_of, list_elem_of_filter in Hlast as [Hk Ha]. done.
  - intros [Hm | (a & -> & Ha)].
    + by destruct (last _).
    + destruct (last (filter _ l)) as [b |] eqn:Hlast; [done |].
      apply last_None in Hlast.
      by apply (filter_nil_not_elem_of _ _ a) in Hlast.
Qed.

(** Every insert adds at most one entry. *)
Lemma foldl_put_size (l : list A) (m : gmap K V) :
  (size (foldl (put key val) m l) ≤ size m + length l)%nat.
Proof.
  induction l as [| a l IH] using rev_ind; [cbn; lia |].
  rewrite foldl_app, length_app. cbn. unfold put at 1.
  rewrite map_size_insert. destruct (_ !! key a); unfold id; lia.
Qed.

(** Inserts under pairwise different keys into the empty map add one entry
    each. *)
Lemma foldl_put_size_NoDup (l : list A) :
  NoDup (key <$> l) →
  size (foldl (put key val) (∅ : gmap K V) l) = length l.
Proof.
  intros Hnd. rewrite <- size_dom, foldl_put_dom, dom_empty_L, (left_id_L ∅ (∪)).
  by rewrite size_list_to_set, length_fmap.
Qed.
End FoldInsertMore.

End DbFacts.

(** ** The raw loader *)

Module RawLoaderFacts.
Import Db DbFacts RawLoader.

Example replace_Z_utc :
  replace_Z "2024-01-05T10:00:00Z" = "2024-01-05T10:00:00+00:00"%string.
Proof. reflexivity. Qed.

Lemma upsert_shape (t : InsertTuple) (tbl : Table) :
  upsert t tbl = if accepted t then Some (put key_of t_row tbl t) else None.
Proof.
  unfold upsert, accepted, put, key_of. by destruct (t_message_id t).
Qed.

Lemma natural_key_key_of (t : InsertTuple) (k : Key) :
  natural_key t = Some k → key_of t = k.
Proof.
  unfold natural_key, key_of. destruct (t_message_id t); cbn; congruence.
Qed.

Lemma rows_with_key_lookup (k : Key) (r : Row) (tbl : Table) :
  tbl !! k = Some r → rows_with_key k tbl = [(k, r)].
Proof.
  intros Hk. unfold rows_with_key.
  apply Permutation_singleton_r.
  rewrite <- (insert_delete_id tbl k r Hk).
  rewrite map_to_list_insert by apply lookup_delete_eq.
  rewrite filter_cons_True by done.
  apply Permutation_skip.
  destruct (filter _ (map_to_list (delete k tbl))) as [| [k' r'] rest] eqn:Hf;
    [done | exfalso].
  assert ((k', r') ∈ filter (fun kv : Key * Row => kv.1 = k)
                            (map_to_list (delete k tbl))) as Hin
    by (rewrite Hf; left).
  apply list_elem_of_filter in Hin as [Heq Hin]. cbn in Heq. subst k'.
  apply elem_of_map_to_list in Hin. by rewrite lookup_delete_eq in Hin.
Qed.

Section WithDatetime.
Variable fromisoformat : string → option Timestamp.

Abbreviation prepare := (RawLoader.prepare fromisoformat).
Abbreviation insert_data := (RawLoader.insert_data fromisoformat).
Abbreviation insert_messages := (RawLoader.insert_messages fromisoformat).
Abbreviation load_files := (RawLoader.load_files fromisoformat).

Lemma insert_data_length msgs ch now :
  length (insert_data msgs ch now) = length msgs.
Proof. apply length_imap. Qed.

(** What a call on a non-empty list does. *)
Lemma insert_messages_spec (conn : connection Table) msgs ch now :
  msgs ≠ [] →
  insert_messages conn msgs ch now =
  if forallb accepted (insert_data msgs ch now)
  then (Returned (length msgs),
        connect (write_all (session conn) (insert_data msgs ch now)))
  else (Raised, rollback conn).
Proof.
  intros Hne. unfold RawLoader.insert_messages.
  destruct msgs as [| m msgs]; [done |].
  rewrite (execute_batch_unpaged upsert).
  set (l := RawLoader.insert_data _ _ _ _).
  destruct (forallb accepted l) eqn:Hall.
  - rewrite (execute_page_accepted upsert accepted _ upsert_shape) by done.
    unfold l. by rewrite insert_data_length.
  - pose proof (execute_page_rejected upsert accepted _ upsert_shape
                  l (session conn) Hall) as Hrej.
    destruct (execute_page upsert l (session conn)) as [ok tbl].
    cbn in Hrej. by subst ok.
Qed.

(** C3. Loading a record with key [(id, channel)] and then a record with
    the same key leaves exactly one row under that key, and every column of
    that row is the incoming record's: the date is the second record's date
    as [fromisoformat] reads it (null when the record has none), the text is
    the second record's text (["B"] after ["A"]), the media flag, the image
    path and the two counts are the second record's, and [loaded_at] is the
    time of the second load; a column that is null in the second record is
    null in the row whatever the first record held. *)
Theorem upsert_overwrite (conn : connection Table) (mA mB : Message)
        (ch : string) (now1 now2 : nat → Timestamp)
        (id : Z) (channel : string) :
  m_message_id mA = Some id → m_message_id mB = Some id →
  match truthy (m_channel_name mA) with Some c => c | None => ch end
  = channel →
  match truthy (m_channel_name mB) with Some c => c | None => ch end
  = channel →
  fits_columns id channel mA = true → fits_columns id channel mB = true →
  let c1 := (insert_messages conn [mA] ch now1).2 in
  let r2 := insert_messages c1 [mB] ch now2 in
  r2.1 = Returned 1%nat ∧
  rows_with_key (id, channel) (committed r2.2) =
  [((id, channel),
    {| data :=
         {| message_date :=
              match truthy (m_message_date mB) with
              | Some s => fromisoformat (replace_Z s)
              | None => None
              end;
            message_text := m_message_text mB;
            has_media :=
              match m_has_media mB with
              | Some flag => flag
              | None => Some false
              end;
            image_path := m_image_path mB;
            views := m_views mB;
            forwards := m_forwards mB |};
       loaded_at := now2 0%nat |})].
Proof.
  intros HidA HidB HchA HchB HfitA HfitB c1 r2. subst c1 r2.
  assert (Hacc : ∀ now m, m_message_id m = Some id →
            match truthy (m_channel_name m) with Some c => c | None => ch end
            = channel →
            fits_columns id channel m = true →
            accepted (prepare ch now 0%nat m) = true
            ∧ key_of (prepare ch now 0%nat m) = (id, channel)).
  { intros now m Hid Hch Hfit. unfold accepted, key_of, RawLoader.prepare.
    cbn -[truthy]. rewrite Hid, Hch. cbn -[truthy]. by split. }
  destruct (Hacc now1 mA HidA HchA HfitA) as [HaA _].
  destruct (Hacc now2 mB HidB HchB HfitB) as [HaB HkB].
  rewrite !insert_messages_spec by done.
  change (RawLoader.insert_data fromisoformat [mA] ch now1)
    with [prepare ch now1 0%nat mA].
  change (RawLoader.insert_data fromisoformat [mB] ch now2)
    with [prepare ch now2 0%nat mB].
  cbn [forallb]. rewrite HaA, HaB. cbn [andb fst snd].
  split; [done |].
  apply rows_with_key_lookup. unfold connect, write_all.
  cbn [committed session foldl]. unfold put at 1.
  rewrite HkB. apply lookup_insert_eq.
Qed.

Lemma insert_data_content msgs ch now1 now2 :
  content <$> insert_data msgs ch now1 = content <$> insert_data msgs ch now2.
Proof.
  unfold RawLoader.insert_data. rewrite !fmap_imap. by apply imap_ext.
Qed.

Lemma insert_data_accepted msgs ch now1 now2 :
  forallb accepted (insert_data msgs ch now1) =
  forallb accepted (insert_data msgs ch now2).
Proof.
  unfold RawLoader.insert_data. by apply forallb_imap_ext.
Qed.

(** Writing a list of pairs a second time changes nothing. *)
Lemma write_twice {V : Type} (l : list (Key * V)) (m : gmap Key V) :
  foldl (put fst snd) (foldl (put fst snd) m l) l = foldl (put fst snd) m l.
Proof.
  apply map_eq. intros k. rewrite !(foldl_put_lookup fst snd).
  by destruct (last (filter _ l)).
Qed.

Lemma write_all_data (tbl : Table) (l : list InsertTuple) :
  data <$> write_all tbl l = foldl (put fst snd) (data <$> tbl) (content <$> l).
Proof. apply (foldl_put_fmap key_of t_row data). Qed.

(** C4, amended. Loading a batch a second time leaves the row count and
    every column of every row as the first load left them, except
    [loaded_at], which takes the time of the second load; the second call
    returns or raises as the first did. *)
Theorem insert_messages_idempotent (conn : connection Table)
        (msgs : list Message) (ch : string) (now1 now2 : nat → Timestamp) :
  let r1 := insert_messages conn msgs ch now1 in
  let r2 := insert_messages r1.2 msgs ch now2 in
  data <$> committed r2.2 = data <$> committed r1.2 ∧
  size (committed r2.2) = size (committed r1.2) ∧
  r2.1 = r1.1.
Proof.
  intros r1 r2.
  assert (data <$> committed r2.2 = data <$> committed r1.2 ∧ r2.1 = r1.1)
    as [Hd Ho].
  { subst r1 r2. destruct msgs as [| m msgs]; [done |].
    rewrite !insert_messages_spec by done.
    rewrite (insert_data_accepted _ ch now2 now1).
    destruct (forallb accepted _) eqn:Hall.
    - cbn [fst snd connect committed session]. split; [| done].
      rewrite !write_all_data, (insert_data_content _ ch now2 now1).
      apply write_twice.
    - done. }
  split; [done |]. split; [| done].
  by rewrite <- (map_size_fmap data), Hd, map_size_fmap.
Qed.

End WithDatetime.


Lemma upsert_overwrite_witness :
  rows_with_key (7, "chan"%string)
    (committed
       (RawLoader.insert_messages sample_dates
          (RawLoader.insert_messages sample_dates (connect ∅)
             [dated_message 7 "A"] "file" (at_time 1000)).2
          [misdated_message 7 "B"] "file" (at_time 2000)).2)
  = [((7, "chan"%string),
      {| data := {| message_date := None; message_text := Some "B"%string;
                    has_media := Some false; image_path := None;
                    views := Some 5; forwards := None |};
         loaded_at := 2000 |})] ∧
  rows_with_key (7, "chan"%string)
    (committed
       (RawLoader.insert_messages sample_dates
          (RawLoader.insert_messages sample_dates (connect ∅)
             [misdated_message 7 "A"] "file" (at_time 1000)).2
          [dated_message 7 "B"] "file" (at_time 2000)).2)
  = [((7, "chan"%string),
      {| data := {| message_date := Some 1704448800000000;
                    message_text := Some "B"%string;
                    has_media := Some true;
                    image_path := Some "images/chan/7.jpg"%string;
                    views := Some 120; forwards := Some 3 |};
         loaded_at := 2000 |})].
Proof.
  split.
  - apply (upsert_overwrite sample_dates (connect ∅) (dated_message 7 "A")
             (misdated_message 7 "B") "file" (at_time 1000) (at_time 2000)
             7 "chan"); reflexivity.
  - apply (upsert_overwrite sample_dates (connect ∅) (misdated_message 7 "A")
             (dated_message 7 "B") "file" (at_time 1000) (at_time 2000)
             7 "chan"); reflexivity.
Defined.


(** The claim of C4 read on the whole table fails: the second load of a
    one-record batch, a second later, leaves a table that differs from the
    one the first load left, in [loaded_at]. *)
Lemma insert_messages_refreshes_loaded_at :
  let r1 := RawLoader.insert_messages no_dates (connect ∅)
              [text_message 7 "A" None] "file" (at_time 1000) in
  let r2 := RawLoader.insert_messages no_dates r1.2
              [text_message 7 "A" None] "file" (at_time 2000) in
  loaded_at <$> committed r1.2 !! (7, "chan"%string) = Some 1000 ∧
  loaded_at <$> committed r2.2 !! (7, "chan"%string) = Some 2000 ∧
  committed r2.2 ≠ committed r1.2.
Proof.
  cbv zeta. split; [by vm_compute |]. split; [by vm_compute |].
  intros Heq.
  apply (f_equal (fun t : Table => loaded_at <$> t !! (7, "chan"%string))) in Heq.
  vm_compute in Heq. discriminate.
Qed.


(** *** More on the raw loader *)

Section MoreOnInsertMessages.
Variable fromisoformat : string → option Timestamp.

Abbreviation insert_data' := (RawLoader.insert_data fromisoformat).
Abbreviation insert_messages' := (RawLoader.insert_messages fromisoformat).
Abbreviation load_files' := (RawLoader.load_files fromisoformat).
Abbreviation all_tuples' := (RawLoader.all_tuples fromisoformat).

(** On a connection with no open transaction, a call either raises and
    leaves that connection as it was, or returns the number of messages and
    leaves the table written by all tuples committed. *)
Lemma insert_messages_clean (conn : connection Table) msgs ch now :
  session conn = committed conn →
  (forallb accepted (insert_data' msgs ch now) = true ∧
   (insert_messages' conn msgs ch now).1 = Returned (length msgs) ∧
   committed (insert_messages' conn msgs ch now).2
   = write_all (committed conn) (insert_data' msgs ch now) ∧
   session (insert_messages' conn msgs ch now).2
   = committed (insert_messages' conn msgs ch now).2) ∨
  (forallb accepted (insert_data' msgs ch now) = false ∧
   insert_messages' conn msgs ch now = (Raised, conn)).
Proof.
  intros Hclean. destruct msgs as [| m msgs]; [by left |].
  rewrite insert_messages_spec by done.
  destruct (forallb accepted _); [left | right]; rewrite ?Hclean; [done |].
  split; [done |]. unfold rollback. rewrite <- Hclean at 2. by destruct conn.
Qed.

(** X4. Within a batch the last record with a key wins, and rows under other
    keys are left alone: after a call that returns, on a connection with no
    open transaction, every key holds the row of the last message of the
    batch that has this key, and what it held before when the batch has no
    such message.  The count returned is the length of the batch. *)
Theorem insert_messages_last_wins (conn c' : connection Table)
        (msgs : list Message) (ch : string) (now : nat → Timestamp) (n : nat) :
  session conn = committed conn →
  insert_messages' conn msgs ch now = (Returned n, c') →
  n = length msgs ∧
  ∀ k, committed c' !! k =
       match last (filter (fun t => key_of t = k) (insert_data' msgs ch now)) with
       | Some t => Some (t_row t)
       | None => committed conn !! k
       end.
Proof.
  intros Hclean Hret.
  destruct (insert_messages_clean conn msgs ch now Hclean)
    as [(_ & Hn & Hc & _) | (_ & Hraised)];
    [| rewrite Hraised in Hret; discriminate Hret].
  rewrite Hret in Hn, Hc. cbn in Hn, Hc. injection Hn as ->.
  split; [done |]. intros k. rewrite Hc.
  apply (foldl_put_lookup key_of t_row).
Qed.

(** X5. A call never removes a row: on a connection with no open transaction,
    whether it returns or raises, every key committed before is committed
    after, and the table grows by at most the length of the batch. *)
Theorem insert_messages_never_deletes (conn : connection Table)
        (msgs : list Message) (ch : string) (now : nat → Timestamp) :
  session conn = committed conn →
  dom (committed conn) ⊆ dom (committed (insert_messages' conn msgs ch now).2) ∧
  (size (committed (insert_messages' conn msgs ch now).2)
   ≤ size (committed conn) + length msgs)%nat.
Proof.
  intros Hclean.
  destruct (insert_messages_clean conn msgs ch now Hclean)
    as [(_ & _ & -> & _) | (_ & ->)]; cbn [snd].
  - unfold write_all. rewrite (foldl_put_dom key_of t_row).
    split; [apply union_subseteq_l |].
    rewrite <- (insert_data_length fromisoformat msgs ch now).
    apply (foldl_put_size key_of t_row).
  - split; [done | lia].
Qed.

Lemma load_files_cons (conn : connection Table) ch f files clock total :
  load_files' conn ((ch, f) :: files) clock total =
  match insert_messages' conn (load_json_file f) ch
                         (fun i => clock (total + i)%nat) with
  | (Returned count, conn') => load_files' conn' files clock (total + count)%nat
  | (Raised, conn') => (Raised, conn')
  end.
Proof.
  cbn [RawLoader.load_files]. destruct (load_json_file f); [| done].
  cbn. by rewrite Nat.add_0_r.
Qed.

Lemma load_files_clean (files : list (string * JsonFile))
      (conn : connection Table) (clock : nat → Timestamp) (total : nat) :
  session conn = committed conn →
  (forallb accepted (all_tuples' files clock total) = true ∧
   (load_files' conn files clock total).1
   = Returned (total + length (all_tuples' files clock total))%nat ∧
   committed (load_files' conn files clock total).2
   = write_all (committed conn) (all_tuples' files clock total) ∧
   session (load_files' conn files clock total).2
   = committed (load_files' conn files clock total).2) ∨
  (forallb accepted (all_tuples' files clock total) = false ∧
   (load_files' conn files clock total).1 = Raised).
Proof.
  revert conn total.
  induction files as [| [ch f] files IH]; intros conn total Hclean.
  - left. cbn. rewrite Nat.add_0_r. by rewrite Hclean.
  - rewrite load_files_cons. cbn [RawLoader.all_tuples].
    rewrite forallb_app, length_app, insert_data_length.
    destruct (insert_messages_clean conn (load_json_file f) ch
                (fun i => clock (total + i)%nat) Hclean)
      as [(Hacc & Hn & Hc & Hs) | (Hacc & Hraised)].
    + rewrite Hacc. cbn [andb].
      destruct (RawLoader.insert_messages _ conn _ _ _) as [o c1].
      cbn in Hn, Hc, Hs. subst o.
      destruct (IH c1 (total + length (load_json_file f))%nat Hs)
        as [(Hacc2 & Hn2 & Hc2 & Hs2) | (Hacc2 & Hr2)].
      * left. split; [exact Hacc2 |].
        split; [rewrite Hn2; f_equal; lia |]. split; [| exact Hs2].
        rewrite Hc2, Hc. unfold write_all. by rewrite foldl_app.
      * right. by rewrite Hacc2, Hr2.
    + right. by rewrite Hacc, Hraised.
Qed.

(** X7. [main] loads the files as one sequence of records: when the server
    accepts the tuples of all files, the process ends with status 0 and the
    table is the one written by all tuples in the order of the files, a later
    file winning over an earlier one on the same key; files that are
    unreadable, hold no list or hold an empty list contribute nothing.  When
    the server rejects a tuple of some file, the process ends with status
    1. *)
Theorem main_loads_files_in_order (tbl : Table)
        (files : list (string * JsonFile)) (clock : nat → Timestamp) :
  (forallb accepted (all_tuples' files clock 0) = true →
   RawLoader.main fromisoformat (Some tbl) files clock
   = (0, Some (write_all tbl (all_tuples' files clock 0)))) ∧
  (forallb accepted (all_tuples' files clock 0) = false →
   (RawLoader.main fromisoformat (Some tbl) files clock).1 = 1).
Proof.
  unfold RawLoader.main.
  destruct (load_files_clean files (commit (connect tbl)) clock 0 eq_refl)
    as [(Hacc & Hn & Hc & _) | (Hacc & Hr)]; rewrite Hacc;
    (split; [| intros ?]; try done).
  - intros _. destruct files as [| file files]; [done |].
    destruct (RawLoader.load_files _ _ _ _ _) as [o c1].
    cbn in Hn, Hc. subst o. by rewrite Hc.
  - destruct files as [| file files]; [done |].
    destruct (RawLoader.load_files _ _ _ _ _) as [o c1].
    cbn in Hr. by subst o.
Qed.

End MoreOnInsertMessages.

Lemma prepare_unparsable_date
      (fromisoformat : string → option Timestamp) (msg : Message)
      (ch : string) (now : nat → Timestamp) (i : nat) (s : string) :
  m_message_date msg = Some s → fromisoformat (replace_Z s) = None →
  RawLoader.prepare fromisoformat ch now i msg
  = RawLoader.prepare fromisoformat ch now i (without_date msg).
Proof.
  intros Hdate Hbad. unfold RawLoader.prepare, without_date. cbn -[truthy].
  rewrite Hdate. cbn. destruct (String.eqb s ""); [done |]. by rewrite Hbad.
Qed.

(** X6. A date that [fromisoformat] does not accept is stored as null and
    never fails the load: a message with such a date is prepared as the same
    message without date, so that any batch with it is loaded, with the same
    outcome and the same table, as the batch with its date taken out; loaded
    alone, when its other values fit the columns, the call returns 1 and the
    row under its key has a null date and the message's text, media flag,
    image path and counts. *)
Theorem unparsable_date_is_stored_as_null
        (fromisoformat : string → option Timestamp)
        (conn : connection Table) (msg : Message) (ch : string)
        (now : nat → Timestamp) (s : string) :
  m_message_date msg = Some s → fromisoformat (replace_Z s) = None →
  (∀ before after,
     RawLoader.insert_messages fromisoformat conn (before ++ msg :: after)
                               ch now
     = RawLoader.insert_messages fromisoformat conn
         (before ++ without_date msg :: after) ch now) ∧
  (∀ id channel,
     m_message_id msg = Some id →
     match truthy (m_channel_name msg) with Some c => c | None => ch end
     = channel →
     fits_columns id channel msg = true →
     (RawLoader.insert_messages fromisoformat conn [msg] ch now).1
     = Returned 1%nat ∧
     committed (RawLoader.insert_messages fromisoformat conn [msg] ch now).2
     !! (id, channel)
     = Some {| data :=
                 {| message_date := None;
                    message_text := m_message_text msg;
                    has_media :=
                      match m_has_media msg with
                      | Some flag => flag
                      | None => Some false
                      end;
                    image_path := m_image_path msg;
                    views := m_views msg;
                    forwards := m_forwards msg |};
               loaded_at := now 0%nat |}).
Proof.
  intros Hdate Hbad. split.
  - intros before after.
    assert (Hdata : RawLoader.insert_data fromisoformat
                      (before ++ msg :: after) ch now
                    = RawLoader.insert_data fromisoformat
                        (before ++ without_date msg :: after) ch now).
    { unfold RawLoader.insert_data. rewrite !imap_app. f_equal.
      cbn [imap].
      by rewrite (prepare_unparsable_date fromisoformat msg ch now _ s
                    Hdate Hbad). }
    destruct before as [| m0 before]; cbn [app] in *;
      rewrite !insert_messages_spec by done; rewrite Hdata;
      cbn [length]; rewrite ?length_app; reflexivity.
  - intros id channel Hid Hch Hfit.
    rewrite insert_messages_spec by done.
    change (RawLoader.insert_data fromisoformat [msg] ch now)
      with [RawLoader.prepare fromisoformat ch now 0%nat msg].
    rewrite (prepare_unparsable_date fromisoformat msg ch now 0%nat s Hdate Hbad).
    assert (Hacc : accepted (RawLoader.prepare fromisoformat ch now 0%nat
                               (without_date msg)) = true
                   ∧ key_of (RawLoader.prepare fromisoformat ch now 0%nat
                               (without_date msg)) = (id, channel)).
    { unfold accepted, key_of, RawLoader.prepare, without_date.
      cbn -[truthy]. rewrite Hid, Hch. cbn -[truthy]. by split. }
    destruct Hacc as [Hacc Hkey]. cbn [forallb]. rewrite Hacc.
    cbn [andb fst snd]. split; [done |].
    unfold connect, write_all. cbn [committed session foldl]. unfold put.
    rewrite Hkey. by rewrite lookup_insert_eq.
Qed.

Lemma unparsable_date_is_stored_as_null_witness :
  (RawLoader.insert_messages sample_dates (connect old_raw_table)
     [misdated_message 7 "B"] "file" (at_time 1000)).1 = Returned 1%nat ∧
  committed (RawLoader.insert_messages sample_dates (connect old_raw_table)
               [misdated_message 7 "B"] "file" (at_time 1000)).2
  !! (7, "chan"%string)
  = Some {| data := {| message_date := None; message_text := Some "B"%string;
                       has_media := Some false; image_path := None;
                       views := Some 5; forwards := None |};
            loaded_at := 1000 |} ∧
  RawLoader.insert_messages sample_dates (connect old_raw_table)
    [dated_message 1 "A"; misdated_message 7 "B"] "file" (at_time 1000)
  = RawLoader.insert_messages sample_dates (connect old_raw_table)
      [dated_message 1 "A"; without_date (misdated_message 7 "B")] "file"
      (at_time 1000).
Proof.
  destruct (unparsable_date_is_stored_as_null sample_dates
              (connect old_raw_table) (misdated_message 7 "B") "file"
              (at_time 1000) "yesterday" eq_refl eq_refl) as [Hbatch Halone].
  destruct (Halone 7 "chan"%string eq_refl eq_refl eq_refl) as [Hret Hrow].
  split; [exact Hret |]. split; [exact Hrow |].
  apply (Hbatch [dated_message 1 "A"] []).
Defined.

Lemma insert_messages_last_wins_witness :
  committed
    (RawLoader.insert_messages no_dates (connect ∅)
       [text_message 7 "A" None; text_message 8 "C" None;
        text_message 7 "B" None] "file" (at_time 1000)).2
  !! (7, "chan"%string)
  = Some (t_row (RawLoader.prepare no_dates "file" (at_time 1000) 2%nat
                   (text_message 7 "B" None))).
Proof.
  destruct (insert_messages_last_wins no_dates (connect ∅)
              (RawLoader.insert_messages no_dates (connect ∅)
                 [text_message 7 "A" None; text_message 8 "C" None;
                  text_message 7 "B" None] "file" (at_time 1000)).2
              [text_message 7 "A" None; text_message 8 "C" None;
               text_message 7 "B" None] "file" (at_time 1000) 3%nat)
    as [_ Hk]; [reflexivity | reflexivity |].
  rewrite Hk. reflexivity.
Defined.

Lemma insert_messages_never_deletes_witness :
  (1, "chan"%string)
  ∈ dom (committed
           (RawLoader.insert_messages no_dates (connect old_raw_table)
              [text_message 7 "A" None; text_message 1 "new" None] "file"
              (at_time 1000)).2) ∧
  (1, "chan"%string)
  ∈ dom (committed
           (RawLoader.insert_messages no_dates (connect old_raw_table)
              [text_message 7 "A" None; no_id_message] "file"
              (at_time 1000)).2) ∧
  (size (committed
           (RawLoader.insert_messages no_dates (connect old_raw_table)
              [text_message 7 "A" None; text_message 1 "new" None] "file"
              (at_time 1000)).2) ≤ 1 + 2)%nat.
Proof.
  assert (Hold : (1, "chan"%string) ∈ dom old_raw_table)
    by (unfold old_raw_table; rewrite dom_singleton_L;
        by apply elem_of_singleton).
  destruct (insert_messages_never_deletes no_dates (connect old_raw_table)
              [text_message 7 "A" None; text_message 1 "new" None] "file"
              (at_time 1000) eq_refl) as [Hkept Hsize].
  destruct (insert_messages_never_deletes no_dates (connect old_raw_table)
              [text_message 7 "A" None; no_id_message] "file"
              (at_time 1000) eq_refl) as [Hkept' _].
  split; [apply Hkept, Hold |]. split; [apply Hkept', Hold |].
  change (size (committed (connect old_raw_table))) with 1%nat in Hsize.
  exact Hsize.
Defined.

Lemma main_loads_files_in_order_witness :
  RawLoader.main no_dates (Some ∅)
    [("a"%string, MessageList [text_message 7 "A" None]);
     ("b"%string, Unreadable);
     ("c"%string, MessageList [text_message 7 "B" None])] (at_time 1000)
  = (0, Some (write_all ∅
                (RawLoader.all_tuples no_dates
                   [("a"%string, MessageList [text_message 7 "A" None]);
                    ("b"%string, Unreadable);
                    ("c"%string, MessageList [text_message 7 "B" None])]
                   (at_time 1000) 0))) ∧
  (RawLoader.main no_dates (Some ∅)
     [("a"%string, MessageList [text_message 7 "A" None]);
      ("c"%string, MessageList [no_id_message])] (at_time 1000)).1 = 1.
Proof.
  split.
  - apply main_loads_files_in_order. reflexivity.
  - apply main_loads_files_in_order. reflexivity.
Defined.

End RawLoaderFacts.

(** ** The detection loader *)

Module DetectionLoaderFacts.
Import Db DbFacts DetectionLoader.

Example dec_int_samples :
  dec_int "42" = Some 42 ∧ dec_int "-7" = Some (-7) ∧ dec_int "4x" = None ∧
  dec_int "" = None.
Proof. done. Qed.

Example long_category_length : String.length long_category = 51%nat.
Proof. reflexivity. Qed.

Lemma detection_upsert_shape (now : Z) (t : InsertTuple) (tbl : Table) :
  upsert now t tbl =
  if accepted t then Some (put key_of (row_of now) tbl t) else None.
Proof. reflexivity. Qed.

Lemma last_filter_is_Some {A : Type} (P : A → Prop) `{∀ x, Decision (P x)}
      (l : list A) (x : A) :
  x ∈ l → P x → is_Some (last (filter P l)).
Proof.
  intros Hin HP. apply last_is_Some. intros Hnil.
  by apply (filter_nil_not_elem_of P l x).
Qed.

Lemma last_filter_None {A : Type} (P : A → Prop) `{∀ x, Decision (P x)}
      (l : list A) :
  (∀ x, x ∈ l → ¬ P x) → last (filter P l) = None.
Proof.
  intros Hno. destruct (filter P l) as [| y l'] eqn:Hf; [done | exfalso].
  assert (y ∈ filter P l) as Hy by (rewrite Hf; left).
  apply list_elem_of_filter in Hy as [HP Hin]. by apply (Hno y).
Qed.

(** What is found under a key of a snapshot table. *)
Lemma snapshot_lookup (now : Z) (rows : list InsertTuple) (k : Key) :
  snapshot now rows !! k =
  row_of now <$> last (filter (fun t => key_of t = k) rows).
Proof.
  unfold snapshot. rewrite (foldl_put_lookup key_of (row_of now)).
  by destruct (last _).
Qed.

Section WithBuiltins.
Variable py_int : string → option Z.
Variable py_float : string → option pyfloat.

Abbreviation read_rows := (DetectionLoader.read_rows py_int py_float).
Abbreviation load_yolo_results :=
  (DetectionLoader.load_yolo_results py_int py_float).
Abbreviation main := (DetectionLoader.main py_int py_float).

(** A load of an existing file whose rows all convert and are all accepted
    returns their number and commits the snapshot. *)
Lemma load_returned (conn : connection Table) lines rows now :
  read_rows lines = Some rows → forallb accepted rows = true →
  load_yolo_results conn (Some lines) now =
  (Returned (length rows), connect (snapshot now rows)).
Proof.
  intros Hread Hall. unfold DetectionLoader.load_yolo_results.
  fold (read_rows lines). rewrite Hread.
  rewrite (execute_batch_unpaged (upsert now)).
  by rewrite (execute_page_accepted (upsert now) accepted _ (detection_upsert_shape now)).
Qed.

(** Any other load of an existing file raises and commits nothing. *)
Lemma load_raised (conn : connection Table) lines now :
  (read_rows lines = None ∨
   ∃ rows, read_rows lines = Some rows ∧ forallb accepted rows = false) →
  (load_yolo_results conn (Some lines) now).1 = Raised ∧
  committed (load_yolo_results conn (Some lines) now).2 = committed conn.
Proof.
  unfold DetectionLoader.load_yolo_results. fold (read_rows lines).
  intros [-> | (rows & -> & Hall)]; [done |].
  rewrite (execute_batch_unpaged (upsert now)).
  pose proof (execute_page_rejected (upsert now) accepted _ (detection_upsert_shape now)
                rows (session (run truncate conn)) Hall) as Hrej.
  destruct (execute_page _ rows _) as [ok tbl]. cbn in Hrej. by subst ok.
Qed.

Lemma load_cases lines :
  (∃ rows, read_rows lines = Some rows ∧ forallb accepted rows = true) ∨
  (read_rows lines = None ∨
   ∃ rows, read_rows lines = Some rows ∧ forallb accepted rows = false).
Proof.
  destruct (read_rows lines) as [rows |]; [| by right; left].
  destruct (forallb accepted rows) eqn:Hall; [left | right; right]; eauto.
Qed.

Lemma load_returned_inv (conn : connection Table) lines now n c' :
  load_yolo_results conn (Some lines) now = (Returned n, c') →
  ∃ rows, read_rows lines = Some rows ∧ forallb accepted rows = true ∧
          n = length rows ∧ c' = connect (snapshot now rows).
Proof.
  intros Hload. destruct (load_cases lines) as [(rows & Hr & Hall) | Hbad].
  - rewrite (load_returned conn lines rows now Hr Hall) in Hload.
    injection Hload as <- <-. eauto.
  - apply (load_raised conn lines now) in Hbad as [Hout _].
    rewrite Hload in Hout. discriminate Hout.
Qed.

Lemma load_raised_inv (conn : connection Table) lines now :
  (load_yolo_results conn (Some lines) now).1 = Raised →
  read_rows lines = None ∨
  ∃ rows, read_rows lines = Some rows ∧ forallb accepted rows = false.
Proof.
  intros Hout. destruct (load_cases lines) as [(rows & Hr & Hall) | Hbad]; [| done].
  rewrite (load_returned conn lines rows now Hr Hall) in Hout.
  discriminate Hout.
Qed.

(** A load that raises on one connection raises on every connection, and
    [main] then ends with status 1 and the table it found. *)
Lemma main_raised (conn : connection Table) lines now tbl :
  (load_yolo_results conn (Some lines) now).1 = Raised →
  main (Some tbl) (Some lines) now = (1, Some tbl).
Proof.
  intros Hout. apply load_raised_inv in Hout. unfold DetectionLoader.main.
  destruct (load_raised (commit (connect tbl)) lines now Hout) as [Ho Hc].
  destruct (DetectionLoader.load_yolo_results _ _ _ _ _) as [[n |] c'];
    [discriminate Ho |].
  cbn in Hc. by rewrite Hc.
Qed.

Lemma read_rows_reads_as (lines : list CsvRow) (rows : list InsertTuple) :
  read_rows lines = Some rows → Forall2 (reads_as py_int py_float) lines rows.
Proof.
  intros Hread. apply mapM_Some in Hread.
  eapply Forall2_impl; [exact Hread |]. intros line t Hparse.
  unfold DetectionLoader.parse_row in Hparse.
  destruct (py_int (c_message_id line)) as [id |] eqn:Hid; [| done].
  cbn in Hparse. unfold reads_as.
  destruct (String.eqb (c_detected_objects_count line) "");
    destruct (String.eqb (c_top_confidence line) "");
    repeat match type of Hparse with
           | context [py_int ?x] => destruct (py_int x) eqn:?; cbn in Hparse
           | context [py_float ?x] => destruct (py_float x) eqn:?; cbn in Hparse
           end;
    try discriminate Hparse; injection Hparse as <-; cbn;
    unfold or_None; by repeat split.
Qed.

(** C5. When a snapshot [S1] and then a snapshot [S2] are loaded and no key
    of [S1] is a key of [S2], the table holds exactly the rows of [S2]: the
    lines of [S2] are read as the tuples [T2], each with the fields of its
    line; under every key the table has the row made of the path, count,
    classes, top class, top confidence, category and confidences of the last
    tuple of [T2] with that key, stamped with the time of the second load,
    and no row where [T2] has no such tuple; every tuple of [T2] has a row;
    and nothing is left under the keys of [S1], which were there after the
    first load. *)
Theorem snapshot_replaces_snapshot (conn c1 c2 : connection Table)
        (S1 S2 : list CsvRow) (T1 T2 : list InsertTuple)
        (now1 now2 : Z) (n1 n2 : nat) :
  read_rows S1 = Some T1 →
  read_rows S2 = Some T2 →
  (∀ t1 t2, t1 ∈ T1 → t2 ∈ T2 →
            (t_message_id t1, t_channel_name t1)
            ≠ (t_message_id t2, t_channel_name t2)) →
  load_yolo_results conn (Some S1) now1 = (Returned n1, c1) →
  load_yolo_results c1 (Some S2) now2 = (Returned n2, c2) →
  Forall2 (reads_as py_int py_float) S2 T2 ∧
  (∀ k, committed c2 !! k =
        (fun t => {| image_path := t_image_path t;
                     detected_objects_count := t_detected_objects_count t;
                     detected_classes := t_detected_classes t;
                     top_detected_class := t_top_detected_class t;
                     top_confidence := t_top_confidence t;
                     image_category := t_image_category t;
                     all_confidences := t_all_confidences t;
                     loaded_at := now2 |})
        <$> last (filter (fun t => (t_message_id t, t_channel_name t) = k)
                         T2)) ∧
  (∀ t2, t2 ∈ T2 →
         is_Some (committed c2 !! (t_message_id t2, t_channel_name t2))) ∧
  (∀ t1, t1 ∈ T1 →
         is_Some (committed c1 !! (t_message_id t1, t_channel_name t1)) ∧
         committed c2 !! (t_message_id t1, t_channel_name t1) = None) ∧
  n2 = length S2.
Proof.
  intros H1 H2 Hdisj Hl1 Hl2.
  apply load_returned_inv in Hl1 as (T1' & H1' & _ & _ & ->).
  apply load_returned_inv in Hl2 as (T2' & H2' & _ & -> & ->).
  rewrite H1 in H1'. injection H1' as <-.
  rewrite H2 in H2'. injection H2' as <-.
  cbn [committed connect].
  assert (Hsome : ∀ now T t, t ∈ T → is_Some (snapshot now T !! key_of t)).
  { intros now T t Hin. rewrite snapshot_lookup. apply fmap_is_Some.
    by apply (last_filter_is_Some _ T t). }
  split; [by apply read_rows_reads_as |].
  split; [intros k; apply snapshot_lookup |].
  split; [intros t2; apply Hsome |].
  split; [| symmetry; eapply length_mapM; exact H2].
  intros t1 Hin1. split; [by apply (Hsome now1 T1 t1) |].
  change (t_message_id t1, t_channel_name t1) with (key_of t1).
  rewrite snapshot_lookup, last_filter_None; [done |].
  intros t2 Hin2 Heq. by apply (Hdisj t1 t2).
Qed.

(** C6, amended. When a load raises after the table was cleared, nothing of
    the transaction is committed: the table that other sessions read is the
    one that was there before the load, neither emptied nor partly filled,
    and the failure ends the process with status 1, which fails the stage
    that runs it. *)
Theorem failed_load_keeps_committed (conn : connection Table)
        (lines : list CsvRow) (now : Z) :
  (load_yolo_results conn (Some lines) now).1 = Raised →
  committed (load_yolo_results conn (Some lines) now).2 = committed conn ∧
  ∀ tbl,
    main (Some tbl) (Some lines) now = (1, Some tbl) ∧
    ∀ out err dbt_result,
      Pipeline.load_yolo_results
        (Pipeline.script_run (main (Some tbl) (Some lines) now).1 out err)
        dbt_result = Pipeline.Failed.
Proof.
  intros Hout. split; [by eapply load_raised, load_raised_inv |].
  intros tbl. rewrite (main_raised conn lines now tbl Hout). done.
Qed.

(** C10. When the CSV file does not exist, [load_yolo_results] returns 0 and
    leaves the connection, hence the table, as it was: the table is not
    cleared, and [main] ends with status 0 and the same table.  A file that
    exists and has no rows also makes it return 0, with the table cleared. *)
Theorem missing_csv_leaves_table (conn : connection Table) (tbl : Table)
        (now : Z) :
  load_yolo_results conn None now = (Returned 0%nat, conn) ∧
  main (Some tbl) None now = (0, Some tbl) ∧
  load_yolo_results conn (Some []) now = (Returned 0%nat, connect ∅).
Proof. done. Qed.

End WithBuiltins.

Lemma snapshot_replaces_snapshot_witness :
  let c1 := (DetectionLoader.load_yolo_results dec_int sample_float
               (connect ∅) (Some [csv_row "1" "lifestyle"]) 1000).2 in
  let c2 := (DetectionLoader.load_yolo_results dec_int sample_float
               c1 (Some [csv_row "2" "product_display"]) 2000).2 in
  is_Some (committed c1 !! (1, "chan"%string)) ∧
  committed c2 !! (1, "chan"%string) = None ∧
  committed c2 !! (2, "chan"%string)
  = Some {| image_path := "data/raw/images/chan/2.jpg";
            detected_objects_count := 1;
            detected_classes := Some "39"%string;
            top_detected_class := Some "bottle"%string;
            top_confidence := 0.75%float;
            image_category := "product_display";
            all_confidences := Some "{39: 0.75}"%string;
            loaded_at := 2000 |}.
Proof.
  cbv zeta.
  destruct (DetectionLoader.read_rows dec_int sample_float
              [csv_row "1" "lifestyle"]) as [T1 |] eqn:H1; [| discriminate H1].
  destruct (DetectionLoader.read_rows dec_int sample_float
              [csv_row "2" "product_display"]) as [T2 |] eqn:H2;
    [| discriminate H2].
  destruct (snapshot_replaces_snapshot dec_int sample_float (connect ∅)
              (connect (snapshot 1000 T1)) (connect (snapshot 2000 T2))
              [csv_row "1" "lifestyle"] [csv_row "2" "product_display"]
              T1 T2 1000 2000 1%nat 1%nat H1 H2)
    as (_ & Hrow & _ & Hin1 & _).
  - injection H1 as <-. injection H2 as <-.
    intros t1 t2 ->%list_elem_of_singleton ->%list_elem_of_singleton.
    by vm_compute.
  - injection H1 as <-. reflexivity.
  - injection H1 as <-. injection H2 as <-. reflexivity.
  - injection H1 as <-. injection H2 as <-.
    destruct (Hin1 _ (list_elem_of_here _ _)) as [Ha Hb].
    split; [exact Ha |]. split; [exact Hb |].
    refine (eq_trans _ (eq_trans (Hrow (2, "chan"%string)) _)); reflexivity.
Defined.

(** The claim of C6 fails where it says that a failed load leaves the table
    empty: with one row committed by an earlier run and a snapshot whose
    second row is rejected, the load raises after the session has cleared the
    table and written the first row, and the committed table still holds the
    earlier row. *)
Lemma failed_load_not_empty :
  let r := DetectionLoader.load_yolo_results dec_int sample_float
             (connect old_table) (Some half_bad_csv) 2000 in
  r.1 = Raised ∧
  session r.2 !! (1, "chan"%string) = None ∧
  is_Some (session r.2 !! (2, "chan"%string)) ∧
  committed r.2 = old_table ∧
  is_Some (old_table !! (1, "chan"%string)) ∧
  DetectionLoader.main dec_int sample_float (Some old_table)
    (Some half_bad_csv) 2000 = (1, Some old_table) ∧
  ¬ failed_load_leaves_empty dec_int sample_float.
Proof.
  cbv zeta.
  assert (Hr : (DetectionLoader.load_yolo_results dec_int sample_float
                  (connect old_table) (Some half_bad_csv) 2000).1 = Raised)
    by (by vm_compute).
  assert (Hc : committed (DetectionLoader.load_yolo_results dec_int
                            sample_float (connect old_table)
                            (Some half_bad_csv) 2000).2 = old_table)
    by (by eapply load_raised, load_raised_inv).
  pose proof (main_raised dec_int sample_float (connect old_table)
                half_bad_csv 2000 old_table Hr) as Hm.
  assert (Hold : is_Some (old_table !! (1, "chan"%string)))
    by (unfold old_table; rewrite lookup_singleton_eq; eauto).
  split; [exact Hr |]. split; [by vm_compute |].
  split; [by vm_compute; eauto |].
  split; [exact Hc |]. split; [exact Hold |]. split; [exact Hm |].
  intros Hclaim. specialize (Hclaim (connect old_table) half_bad_csv 2000 Hr).
  rewrite Hc in Hclaim. cbn in Hclaim. rewrite Hclaim in Hold.
  rewrite lookup_empty in Hold. by destruct Hold.
Qed.

Lemma failed_load_keeps_committed_witness :
  committed (DetectionLoader.load_yolo_results dec_int sample_float
               (connect old_table) (Some half_bad_csv) 2000).2 = old_table ∧
  DetectionLoader.main dec_int sample_float (Some old_table)
    (Some half_bad_csv) 2000 = (1, Some old_table).
Proof.
  destruct (failed_load_keeps_committed dec_int sample_float
              (connect old_table) half_bad_csv 2000) as [Hc Hm];
    [by vm_compute |].
  split; [exact Hc | apply (Hm old_table)].
Defined.

(** *** More on the detection loader *)

Section MoreOnLoadYoloResults.
Variable py_int : string → option Z.
Variable py_float : string → option pyfloat.

Abbreviation read_rows' := (DetectionLoader.read_rows py_int py_float).
Abbreviation load_yolo_results' :=
  (DetectionLoader.load_yolo_results py_int py_float).

(** X8. A load that returns owes nothing to what the table held or to what the
    session had left open: from any other connection the same file, loaded
    at the same time, returns the same count and leaves the same table. *)
Theorem load_forgets_the_past (conn conn' c1 : connection Table)
        (lines : list CsvRow) (now : Z) (n : nat) :
  load_yolo_results' conn (Some lines) now = (Returned n, c1) →
  load_yolo_results' conn' (Some lines) now = (Returned n, c1).
Proof.
  intros Hload.
  apply load_returned_inv in Hload as (rows & Hr & Hall & -> & ->).
  by apply load_returned.
Qed.

(** X9. The count a load returns is the number of rows of the file, not the
    number of rows of the table: the table has a row for each key of the
    file, so it has at most that many rows, and exactly that many when no
    two rows of the file have the same key. *)
Theorem load_count_and_size (conn c1 : connection Table)
        (lines : list CsvRow) (now : Z) (n : nat) :
  load_yolo_results' conn (Some lines) now = (Returned n, c1) →
  n = length lines ∧
  ∃ rows, read_rows' lines = Some rows ∧
          dom (committed c1) = list_to_set (key_of <$> rows) ∧
          (size (committed c1) ≤ n)%nat ∧
          (NoDup (key_of <$> rows) → size (committed c1) = n).
Proof.
  intros Hload.
  apply load_returned_inv in Hload as (rows & Hr & Hall & -> & ->).
  split; [symmetry; by eapply length_mapM |].
  exists rows. split; [done |]. cbn [committed connect]. unfold snapshot.
  split; [| split].
  - by rewrite (foldl_put_dom key_of (row_of now)), dom_empty_L,
      (left_id_L ∅ (∪)).
  - pose proof (foldl_put_size key_of (row_of now) rows ∅) as Hsize.
    by rewrite map_size_empty in Hsize.
  - apply (foldl_put_size_NoDup key_of (row_of now)).
Qed.

(** X10. When the detection loader's process ends with status 0 and when with
    status 1: it ends with 0 exactly when the database is reached and either
    there is no CSV file, in which case the table is left as it was, or every
    row of the file converts and is accepted, in which case the table is the
    snapshot of the file; in every other case it ends with 1 and the table,
    if the database was reached at all, is left as it was. *)
Theorem detection_main_exit_status (db : option Table)
        (csv_file : option (list CsvRow)) (now : Z) :
  let good :=
    match csv_file with
    | None => Some None
    | Some lines =>
        match read_rows' lines with
        | Some rows => if forallb accepted rows then Some (Some rows) else None
        | None => None
        end
    end in
  DetectionLoader.main py_int py_float db csv_file now =
  match db, good with
  | None, _ => (1, None)
  | Some tbl, Some None => (0, Some tbl)
  | Some tbl, Some (Some rows) => (0, Some (snapshot now rows))
  | Some tbl, None => (1, Some tbl)
  end.
Proof.
  cbv zeta. destruct db as [tbl |]; [| done].
  destruct csv_file as [lines |]; [| done].
  destruct (load_cases py_int py_float lines) as [(rows & Hr & Hall) | Hbad].
  - fold (read_rows' lines). rewrite Hr, Hall. unfold DetectionLoader.main.
    by rewrite (load_returned py_int py_float _ lines rows now Hr Hall).
  - pose proof (main_raised py_int py_float (connect tbl) lines now tbl) as Hm.
    rewrite Hm by (by apply load_raised).
    fold (read_rows' lines).
    destruct Hbad as [-> | (rows & -> & ->)]; done.
Qed.

End MoreOnLoadYoloResults.

Lemma load_forgets_the_past_witness :
  DetectionLoader.load_yolo_results dec_int sample_float (connect old_table)
    (Some [csv_row "2" "product_display"]) 2000
  = DetectionLoader.load_yolo_results dec_int sample_float (connect ∅)
      (Some [csv_row "2" "product_display"]) 2000.
Proof.
  destruct (DetectionLoader.load_yolo_results dec_int sample_float (connect ∅)
              (Some [csv_row "2" "product_display"]) 2000)
    as [[n |] c1] eqn:Hload; [| by vm_compute in Hload].
  by apply (load_forgets_the_past dec_int sample_float (connect ∅)).
Defined.

Lemma load_count_and_size_witness :
  ∃ c1,
    DetectionLoader.load_yolo_results dec_int sample_float (connect old_table)
      (Some [csv_row "2" "lifestyle"; csv_row "2" "product_display"]) 2000
    = (Returned 2%nat, c1) ∧
    (size (committed c1) ≤ 2)%nat.
Proof.
  eexists. split; [reflexivity |].
  destruct (load_count_and_size dec_int sample_float (connect old_table) _
              [csv_row "2" "lifestyle"; csv_row "2" "product_display"] 2000
              2%nat eq_refl)
    as (_ & rows & _ & _ & Hsize & _).
  exact Hsize.
Defined.

End DetectionLoaderFacts.

(** ** The pipeline stages *)

Module PipelineFacts.
Import Pipeline.

Example last_chars_samples :
  last_chars 3 "abcdef" = "def"%string ∧ last_chars 500 "abc" = "abc"%string.
Proof. done. Qed.

(** C8, as the code has it.  When the database cannot be reached,
    [main] of the raw loader logs the error and returns: the process ends
    with status 0, and the stage that runs it with [check=True] logs its
    materialization and succeeds.  [main] of the detection loader lets the
    same failure end its process with status 1, which fails its stage. *)
Theorem connection_failure_exits_zero
        (fromisoformat : string → option RawLoader.Timestamp)
        (json_files : list (string * RawLoader.JsonFile))
        (clock : nat → RawLoader.Timestamp) (out err : string) :
  let status := (RawLoader.main fromisoformat None json_files clock).1 in
  status = 0 ∧
  load_raw_to_postgres (script_run status out err) =
  Succeeded "loading_success"
    [ {| asset_key := "raw_postgres_data";
         description := "Raw data loaded into PostgreSQL";
         metadata := [("loader_output", last_chars 500 out);
                      ("status", "success")]%string |} ] ∧
  ∀ py_int py_float csv_file now dbt_result,
    (DetectionLoader.main py_int py_float None csv_file now).1 = 1 ∧
    load_yolo_results
      (script_run (DetectionLoader.main py_int py_float None csv_file now).1
                  out err) dbt_result = Failed.
Proof. done. Qed.

(** C9, as the code has it.  A primary invocation that ends with a status
    other than 0 fails the stage.  After a primary invocation that ends with
    0, [run_dbt_transformations] succeeds whatever the status of [dbt test]
    and records it as [test_status]; [load_yolo_results] succeeds whatever
    the status of the rebuild of [fct_image_detections], and its
    materialization is the same for every status: the outcome of the rebuild
    is not recorded. *)
Theorem secondary_invocation_outcomes (p s : CompletedProcess) (x : Run) :
  (returncode p ≠ 0 →
   run_dbt_transformations (Exited p) x = Failed ∧
   load_yolo_results (Exited p) x = Failed) ∧
  (returncode p = 0 →
   run_dbt_transformations (Exited p) (Exited s) =
   Succeeded "dbt_success"
     [ {| asset_key := "dbt_marts";
          description := "dbt models built successfully";
          metadata := [("dbt_output", last_chars 500 (stdout p));
                       ("test_status",
                        if (returncode s =? 0)%Z then "passed" else "failed");
                       ("status", "success")]%string |} ] ∧
   load_yolo_results (Exited p) (Exited s) =
   Succeeded "yolo_loading_success"
     [ {| asset_key := "yolo_postgres_data";
          description := "YOLO detection results loaded and integrated";
          metadata := [("loader_output", last_chars 500 (stdout p));
                       ("status", "success")]%string |} ]).
Proof.
  unfold run_dbt_transformations, load_yolo_results, run_checked. split.
  - intros Hne. apply Z.eqb_neq in Hne. by rewrite Hne.
  - intros ->. done.
Qed.

Lemma secondary_invocation_outcomes_witness :
  load_yolo_results (Exited (mkCompleted 1 "" "connection refused"))
                    (Exited (mkCompleted 0 "" "")) = Failed ∧
  load_yolo_results (Exited (mkCompleted 0 "Loaded 3 rows" ""))
                    (Exited (mkCompleted 1 "" "Compilation Error")) =
  load_yolo_results (Exited (mkCompleted 0 "Loaded 3 rows" ""))
                    (Exited (mkCompleted 0 "Completed successfully" "")).
Proof.
  split.
  - apply (secondary_invocation_outcomes
             (mkCompleted 1 "" "connection refused") (mkCompleted 0 "" "")
             (Exited (mkCompleted 0 "" ""))).
    cbn. lia.
  - destruct (secondary_invocation_outcomes
                (mkCompleted 0 "Loaded 3 rows" "")
                (mkCompleted 1 "" "Compilation Error") NotStarted)
      as [_ H1].
    destruct (secondary_invocation_outcomes
                (mkCompleted 0 "Loaded 3 rows" "")
                (mkCompleted 0 "Completed successfully" "") NotStarted)
      as [_ H2].
    destruct (H1 eq_refl) as [_ ->]. destruct (H2 eq_refl) as [_ ->].
    reflexivity.
Defined.

(** *** More on the stages *)

Lemma substring_from_start (n : nat) (s : string) :
  (String.length s ≤ n)%nat → substring 0 n s = s.
Proof.
  revert n. induction s as [| c s IH]; intros n Hlen.
  - by destruct n.
  - destruct n as [| n]; cbn in *; [lia |]. f_equal. apply IH. lia.
Qed.

Lemma substring_to_end (s : string) (k n : nat) :
  (k ≤ String.length s)%nat → (String.length s ≤ k + n)%nat →
  ∃ skipped, s = (skipped +:+ substring k n s)%string ∧
             String.length skipped = k.
Proof.
  revert k. induction s as [| c s IH]; intros k Hk Hn.
  - cbn in Hk. assert (k = 0%nat) as -> by lia.
    exists ""%string. by destruct n.
  - destruct k as [| k].
    + exists ""%string. split; [| done].
      by rewrite (substring_from_start n (String c s)).
    + cbn in Hk, Hn. destruct (IH k) as (skipped & Hs & Hlen); [lia .. |].
      exists (String c skipped). split; [| cbn; by rewrite Hlen].
      change (String c s = String c (skipped +:+ substring k n s)%string).
      by rewrite <- Hs.
Qed.

Lemma length_string_app (a b : string) :
  String.length (a +:+ b) = (String.length a + String.length b)%nat.
Proof.
  induction a as [| c a IH]; [done |].
  change (S (String.length (a +:+ b)) = S (String.length a + String.length b)).
  by rewrite IH.
Qed.

Lemma last_chars_tail (n : nat) (s : string) :
  String.length (last_chars n s) = Nat.min n (String.length s) ∧
  ∃ cut, s = (cut +:+ last_chars n s)%string ∧
         String.length cut = (String.length s - n)%nat.
Proof.
  unfold last_chars.
  destruct (substring_to_end s (String.length s - n) n) as (cut & Hs & Hcut);
    [lia .. |].
  split; [| by exists cut].
  apply (f_equal String.length) in Hs. rewrite length_string_app in Hs. lia.
Qed.

(** X11. What the stages record of a program's output, [stdout[-500:]], is the
    end of that output and is never longer than 500 characters: the output
    is what was cut off followed by what is recorded, and nothing is cut off
    from an output of at most 500 characters. *)
Theorem recorded_output_is_bounded_tail (p : CompletedProcess) :
  (String.length (last_chars 500 (stdout p)) ≤ 500)%nat ∧
  (∃ cut, stdout p = (cut +:+ last_chars 500 (stdout p))%string) ∧
  ((String.length (stdout p) ≤ 500)%nat →
   last_chars 500 (stdout p) = stdout p).
Proof.
  destruct (last_chars_tail 500 (stdout p)) as (Hlen & cut & Hs & Hcut).
  split; [lia |]. split; [by exists cut |]. intros Hshort.
  assert (cut = ""%string) as Hempty by (destruct cut; cbn in Hcut; [done | lia]).
  rewrite Hempty in Hs. by rewrite Hs at 2.
Qed.

Lemma recorded_output_is_bounded_tail_witness :
  last_chars 500 (stdout (mkCompleted 0 "Loaded 3 rows" ""))
  = "Loaded 3 rows"%string.
Proof.
  apply (recorded_output_is_bounded_tail (mkCompleted 0 "Loaded 3 rows" "")).
  cbn. lia.
Defined.

Lemma attempt_of_checked_run (asset about key value : string) (primary : Run) :
  attempt_as_expected true primary
    match run_checked primary with
    | Some result =>
        Succeeded value
          [ {| asset_key := asset; description := about;
               metadata := [(key, last_chars 500 (stdout result));
                            ("status", "success")%string] |} ]
    | None => Failed
    end.
Proof.
  unfold attempt_as_expected.
  destruct (run_checked primary) as [result |]; [| by left].
  split; [done |]. split; [done |]. eexists. split; [done |].
  split; [done |].
  constructor; [| constructor; [cbn; lia | constructor]].
  destruct (last_chars_tail 500 (stdout result)) as [Hlen _]. cbn. lia.
Qed.

(** X12. Every attempt of each of the five stages is as expected: it fails
    exactly when its first program does not end with status 0 or a program
    cannot be started, whatever the status of the second program of
    [run_dbt_transformations] and [load_yolo_results]; when it succeeds it
    logs exactly one materialization, with status ["success"], in which no
    recorded value is longer than 500 characters. *)
Theorem stage_attempts_as_expected (primary secondary : Run) :
  attempt_as_expected true primary (scrape_telegram_data primary) ∧
  attempt_as_expected true primary (load_raw_to_postgres primary) ∧
  attempt_as_expected (started secondary) primary
                      (run_dbt_transformations primary secondary) ∧
  attempt_as_expected true primary (run_yolo_enrichment primary) ∧
  attempt_as_expected (started secondary) primary
                      (load_yolo_results primary secondary).
Proof.
  split; [apply attempt_of_checked_run |].
  split; [apply attempt_of_checked_run |].
  split; [| split; [apply attempt_of_checked_run |]].
  - unfold run_dbt_transformations, attempt_as_expected.
    destruct (run_checked primary) as [result |]; [| by left].
    destruct secondary as [t |]; cbn; [| by right].
    split; [done |]. split; [done |]. eexists. split; [done |].
    split; [done |].
    constructor; [| constructor; [| constructor; [cbn; lia | constructor]]].
    + destruct (last_chars_tail 500 (stdout result)) as [Hlen _]. cbn. lia.
    + destruct (returncode t =? 0); cbn; lia.
  - unfold load_yolo_results, attempt_as_expected.
    destruct (run_checked primary) as [result |]; [| by left].
    destruct secondary as [t |]; cbn; [| by right].
    split; [done |]. split; [done |]. eexists. split; [done |].
    split; [done |].
    constructor; [| constructor; [cbn; lia | constructor]].
    destruct (last_chars_tail 500 (stdout result)) as [Hlen _]. cbn. lia.
Qed.

End PipelineFacts.

(** ** The detection run *)

Module YoloRunFacts.
Import Db DbFacts Yolo YoloRun.

Section WithBuiltins.
Variable py_int : string → option Z.
Variable py_float : string → option pyfloat.
Variable str_int : Z → string.
Variable str_float : pyfloat → string.
Variable str_dict : list (Z * pyfloat) → string.
Variable model : ImagePath → option (list Detection).

Abbreviation process_image' :=
  (YoloRun.process_image py_int str_int str_dict model).
Abbreviation process_all' :=
  (YoloRun.process_all py_int str_int str_dict model).
Abbreviation main' := (YoloRun.main py_int str_int str_float str_dict model).
Abbreviation csv_cells' := (YoloRun.csv_cells str_int str_float).
Abbreviation reads_back' := (reads_back py_int py_float str_int str_float).

Lemma length_omap_le {A B : Type} (f : A → option B) (l : list A) :
  (length (omap f l) ≤ length l)%nat.
Proof.
  induction l as [| x l IH]; [done |].
  change (omap f (x :: l))
    with (match f x with Some y => y :: omap f l | None => omap f l end).
  destruct (f x); cbn [length]; lia.
Qed.

Lemma omap_cons_case {A B : Type} (f : A → option B) (x : A) (l : list A) :
  omap f (x :: l)
  = match f x with Some y => y :: omap f l | None => omap f l end.
Proof. reflexivity. Qed.

Lemma process_all_spec (images : list ImagePath) (results : list Result)
      (processed errors : nat) :
  process_all' images results processed errors =
  (results ++ omap process_image' images,
   (processed + length (omap process_image' images))%nat,
   (errors + (length images - length (omap process_image' images)))%nat).
Proof.
  revert results processed errors.
  induction images as [| p images IH]; intros results processed errors.
  - cbn. by rewrite app_nil_r, !Nat.add_0_r.
  - cbn [YoloRun.process_all length]. rewrite omap_cons_case.
    pose proof (length_omap_le process_image' images) as Hle.
    destruct (process_image' p) as [r |]; rewrite IH; cbn [length].
    + rewrite <- app_assoc. cbn [app]. rewrite !pair_equal_spec.
      split; [split |]; [done | lia | lia].
    + rewrite !pair_equal_spec. split; [split |]; [done | lia | lia].
Qed.

Lemma detection_run_csv (model_loads : bool)
      (images_dir : option (list DirEntry))
      (csv : option (list DetectionLoader.CsvRow)) :
  let images := find_all_images images_dir in
  let results := omap process_image' images in
  let run := main' model_loads images_dir csv in
  (model_loads = true →
   processed_count run = length results ∧
   (processed_count run + error_count run)%nat = length images) ∧
  (processed_count run = 0%nat → output_file run = csv) ∧
  (processed_count run ≠ 0%nat →
   output_file run = Some (csv_cells' <$> results)).
Proof.
  intros images results run. subst run. unfold YoloRun.main.
  destruct model_loads; [| done]. fold images.
  pose proof (length_omap_le process_image' images) as Hle. fold results in Hle.
  destruct images as [| p rest] eqn:Himages.
  - subst results. cbn. done.
  - rewrite process_all_spec. fold results. cbn [app Nat.add].
    cbn [processed_count error_count output_file].
    split; [intros _; split; [done | lia] |].
    unfold save_results_to_csv. destruct results; cbn [length]; [done |].
    split; [lia | done].
Qed.

Lemma written_rows (results : list Result) :
  Forall reads_back' results →
  DetectionLoader.read_rows py_int py_float (csv_cells' <$> results)
  = Some (tuple_of <$> results).
Proof.
  intros Hall. unfold DetectionLoader.read_rows. apply mapM_Some.
  apply Forall2_fmap_l, Forall2_fmap_r, Forall_Forall2_diag.
  eapply Forall_impl; [exact Hall |].
  intros r (Hid & Hcount & Hcount' & Hconf & Hconf' & Hclass & Hdict).
  unfold DetectionLoader.parse_row, YoloRun.csv_cells, tuple_of. cbn.
  rewrite Hid. cbn.
  destruct (String.eqb_spec (str_int (Z.of_nat (detected_objects_count r))) "")
    as [Hempty |_]; [done |].
  rewrite Hcount. cbn.
  destruct (String.eqb_spec (str_float (top_confidence r)) "")
    as [Hempty |_]; [done |].
  rewrite Hconf. cbn. do 2 f_equal.
  + unfold DetectionLoader.or_None.
    destruct (top_detected_class r) as [name |]; cbn; [| done].
    destruct (String.eqb_spec name "") as [-> |]; done.
  + unfold DetectionLoader.or_None.
    by destruct (String.eqb_spec (all_confidences r) "").
Qed.

(** X13. What one run of the detector does to the CSV file: every image found
    is counted as processed or as an error; the file is left as it was when
    no image is processed, be it that the model does not load, that no image
    is found or that every image fails; otherwise it holds one row for each
    processed image, in the order in which the images were found. *)
Theorem detection_run_writes_processed_images
        (model_loads : bool) (images_dir : option (list DirEntry))
        (csv : option (list DetectionLoader.CsvRow)) :
  let images := find_all_images images_dir in
  let results := omap process_image' images in
  let run := main' model_loads images_dir csv in
  (model_loads = true →
   processed_count run = length results ∧
   (processed_count run + error_count run)%nat = length images) ∧
  (processed_count run = 0%nat → output_file run = csv) ∧
  (processed_count run ≠ 0%nat →
   output_file run = Some (csv_cells' <$> results)).
Proof. apply detection_run_csv. Qed.

(** X14. What the CSV writer writes for a result, the detection loader reads
    back: when the numbers of every result survive [str] followed by [int]
    or [float] and its class name and printed confidences are not empty, the
    rows written for a list of results are read as the tuples of these
    results, with the same key, path, count, category, top class and top
    confidence.  An image on which nothing was detected is read back with no
    classes, no top class, confidence 0.0 and category ["other"]. *)
Theorem written_rows_read_back (results : list Result) :
  (Forall reads_back' results →
   DetectionLoader.read_rows py_int py_float (csv_cells' <$> results)
   = Some (tuple_of <$> results)) ∧
  (∀ p r, process_image' p = Some r → model p = Some [] →
          DetectionLoader.t_detected_objects_count (tuple_of r) = 0 ∧
          DetectionLoader.t_detected_classes (tuple_of r) = None ∧
          DetectionLoader.t_top_detected_class (tuple_of r) = None ∧
          DetectionLoader.t_top_confidence (tuple_of r) = 0%float ∧
          DetectionLoader.t_image_category (tuple_of r) = "other"%string).
Proof.
  split; [apply written_rows |].
  - intros p r Hr Hm. unfold YoloRun.process_image in Hr.
    destruct (extract_message_id_from_path py_int p); [| done].
    cbn in Hr. rewrite Hm in Hr. by injection Hr as <-.
Qed.

(** X15. Detection followed by loading: when the run has processed an image,
    the numbers of its results read back and the server accepts their
    tuples, loading the file it leaves returns the number of processed images
    and commits exactly their snapshot; when the run has processed no image,
    the loader is given the file of an earlier run. *)
Theorem detect_then_load (images_dir : option (list DirEntry))
        (csv : option (list DetectionLoader.CsvRow))
        (conn : connection DetectionLoader.Table) (now : Z) :
  let results := omap process_image' (find_all_images images_dir) in
  let run := main' true images_dir csv in
  (results ≠ [] →
   Forall reads_back' results →
   forallb DetectionLoader.accepted (tuple_of <$> results) = true →
   DetectionLoader.load_yolo_results py_int py_float conn (output_file run) now
   = (Returned (length results),
      connect (DetectionLoader.snapshot now (tuple_of <$> results)))) ∧
  (results = [] → output_file run = csv).
Proof.
  intros results run.
  destruct (detection_run_csv true images_dir csv) as (Hcount & Hnone & Hsome).
  fold results run in Hcount, Hnone, Hsome.
  destruct (Hcount eq_refl) as [Hprocessed _]. split.
  - intros Hne Hback Hacc.
    rewrite Hsome by (rewrite Hprocessed; by destruct results).
    rewrite <- (length_fmap tuple_of results).
    apply DetectionLoaderFacts.load_returned; [| done].
    by apply written_rows.
  - intros Hnil. apply Hnone. by rewrite Hprocessed, Hnil.
Qed.

End WithBuiltins.

Example find_all_images_sample :
  find_all_images sample_dir
  = [sample_image "chan" "7" ".jpg"; sample_image "chan" "cover" ".png";
     sample_image "chan" "2" ".jpg"].
Proof. by vm_compute. Qed.

Lemma sample_results_read_back :
  Forall (reads_back DetectionLoader.dec_int DetectionLoader.sample_float
            sample_str_int sample_str_float)
         (omap (YoloRun.process_image DetectionLoader.dec_int sample_str_int
                  sample_str_dict sample_model)
               (find_all_images sample_dir)).
Proof.
  repeat (apply Forall_cons; split); [| | apply Forall_nil];
    unfold reads_back; cbn; repeat split; done.
Qed.

Lemma detection_run_writes_processed_images_witness :
  let run := YoloRun.main DetectionLoader.dec_int sample_str_int
               sample_str_float sample_str_dict sample_model true sample_dir
               None in
  processed_count run = 2%nat ∧ error_count run = 1%nat ∧
  length <$> output_file run = Some 2%nat.
Proof.
  cbv zeta.
  destruct (detection_run_writes_processed_images DetectionLoader.dec_int
              sample_str_int sample_str_float sample_str_dict sample_model
              true sample_dir None) as (Hcount & _ & Hfile).
  destruct (Hcount eq_refl) as [Hprocessed Htotal].
  rewrite Hfile by (by rewrite Hprocessed).
  rewrite Hprocessed in Htotal |- *. split; [reflexivity |].
  split; [| reflexivity].
  change (length (omap _ (find_all_images sample_dir))) with 2%nat in Htotal.
  change (length (find_all_images sample_dir)) with 3%nat in Htotal. lia.
Defined.

Lemma written_rows_read_back_witness :
  DetectionLoader.read_rows DetectionLoader.dec_int
    DetectionLoader.sample_float
    (YoloRun.csv_cells sample_str_int sample_str_float
     <$> omap (YoloRun.process_image DetectionLoader.dec_int sample_str_int
                 sample_str_dict sample_model)
              (find_all_images sample_dir))
  = Some (tuple_of
          <$> omap (YoloRun.process_image DetectionLoader.dec_int
                      sample_str_int sample_str_dict sample_model)
                   (find_all_images sample_dir)) ∧
  DetectionLoader.t_detected_classes
    (tuple_of
       {| message_id := 2; channel_name := "chan";
          image_path := "data/raw/images/chan/2.jpg";
          detected_objects_count := 0; detected_classes := "";
          top_detected_class := None; top_confidence := 0;
          image_category := "other"; all_confidences := "{}" |}) = None.
Proof.
  destruct (written_rows_read_back DetectionLoader.dec_int
              DetectionLoader.sample_float sample_str_int sample_str_float
              sample_str_dict sample_model
              (omap (YoloRun.process_image DetectionLoader.dec_int
                       sample_str_int sample_str_dict sample_model)
                    (find_all_images sample_dir))) as [Hrows Hnone].
  split; [apply Hrows, sample_results_read_back |].
  apply (Hnone (sample_image "chan" "2" ".jpg")); reflexivity.
Defined.

Lemma detect_then_load_witness :
  DetectionLoader.load_yolo_results DetectionLoader.dec_int
    DetectionLoader.sample_float (connect DetectionLoader.old_table)
    (output_file
       (YoloRun.main DetectionLoader.dec_int sample_str_int sample_str_float
          sample_str_dict sample_model true sample_dir None)) 2000
  = (Returned 2%nat,
     connect (DetectionLoader.snapshot 2000
                (tuple_of
                 <$> omap (YoloRun.process_image DetectionLoader.dec_int
                             sample_str_int sample_str_dict sample_model)
                          (find_all_images sample_dir)))).
Proof.
  apply (detect_then_load DetectionLoader.dec_int DetectionLoader.sample_float
           sample_str_int sample_str_float sample_str_dict sample_model
           sample_dir None (connect DetectionLoader.old_table) 2000).
  - done.
  - apply sample_results_read_back.
  - reflexivity.
Defined.

End YoloRunFacts.

(** ** From the scraper to the raw table *)

Module ScraperFacts.
Import Db RawLoader Scraper.

Lemma replace_Z_without_Z (s : string) : has_Z s = false → replace_Z s = s.
Proof.
  induction s as [| c s IH]; [done |]. cbn.
  destruct (Ascii.eqb c "Z"); [done |]. intros Hs. by rewrite IH.
Qed.

Lemma truthy_Some (s : string) : s ≠ ""%string → truthy (Some s) = Some s.
Proof. intros Hs. cbn. by destruct (String.eqb_spec s ""). Qed.

Section WithDatetime.
Variable isoformat : Timestamp → string.
Variable fromisoformat : string → option Timestamp.

Lemma scrape_channel_elements connected channel_name feed (msg : Message) :
  msg ∈ scrape_channel isoformat connected channel_name feed ↔
  connected = true ∧
  ∃ messages message downloaded,
    feed = Some messages ∧ (message, Some downloaded) ∈ messages ∧
    msg = scraped_message isoformat message (lstrip_at channel_name)
                          downloaded.
Proof.
  unfold scrape_channel. split.
  - destruct connected; [| by intros ?%elem_of_nil].
    destruct feed as [messages |]; [| by intros ?%elem_of_nil].
    intros ([message handled] & Hin & Hmsg)%list_elem_of_omap.
    destruct handled as [downloaded |]; [| done]. cbn in Hmsg.
    injection Hmsg as <-. split; [done |].
    by exists messages, message, downloaded.
  - intros (-> & messages & message & downloaded & -> & Hin & ->).
    apply list_elem_of_omap. by exists (message, Some downloaded).
Qed.

(** The tuple that the loader prepares from what the scraper writes for one
    message of the feed. *)
Lemma prepare_scraped_message (channel_name file_stem : string)
      (now : nat → Timestamp) (i : nat) (message : TelegramMessage)
      (downloaded : option string) :
  channel_name ≠ ""%string →
  let t := prepare fromisoformat file_stem now i
             (scraped_message isoformat message channel_name downloaded) in
  natural_key t = Some (id message, channel_name) ∧
  message_text (data (t_row t)) = Some (default ""%string (text message)) ∧
  has_media (data (t_row t)) = Some (media message) ∧
  image_path (data (t_row t)) = truthy downloaded ∧
  RawLoader.views (data (t_row t)) = Scraper.views message ∧
  RawLoader.forwards (data (t_row t)) = Scraper.forwards message ∧
  loaded_at (t_row t) = now i ∧
  (date message = None → message_date (data (t_row t)) = None) ∧
  (∀ d, date message = Some d →
        isoformat d ≠ ""%string → has_Z (isoformat d) = false →
        fromisoformat (isoformat d) = Some d →
        message_date (data (t_row t)) = Some d).
Proof.
  intros Hname.
  assert (Hshape :
    ∀ t, t = prepare fromisoformat file_stem now i
               (extract_message_data isoformat message channel_name) →
         natural_key t = Some (id message, channel_name) ∧
         message_text (data (t_row t))
         = Some (default ""%string (text message)) ∧
         has_media (data (t_row t)) = Some (media message) ∧
         RawLoader.views (data (t_row t)) = Scraper.views message ∧
         RawLoader.forwards (data (t_row t)) = Scraper.forwards message ∧
         loaded_at (t_row t) = now i ∧
         (date message = None → message_date (data (t_row t)) = None) ∧
         (∀ d, date message = Some d →
               isoformat d ≠ ""%string → has_Z (isoformat d) = false →
               fromisoformat (isoformat d) = Some d →
               message_date (data (t_row t)) = Some d)).
  { intros t ->. unfold prepare, natural_key, extract_message_data.
    cbn -[truthy]. rewrite (truthy_Some _ Hname). cbn -[truthy].
    split; [done |]. split.
    { destruct (text message) as [t |]; cbn; [| done].
      by destruct (String.eqb_spec t "") as [-> |]. }
    split; [done |]. split; [done |]. split; [done |]. split; [done |].
    split.
    - by intros ->.
    - intros d -> Hne HZ Hback. cbn -[truthy]. rewrite (truthy_Some _ Hne).
      by rewrite (replace_Z_without_Z _ HZ). }
  unfold scraped_message. cbv zeta.
  destruct (truthy downloaded) as [path |] eqn:Hd.
  - destruct (Hshape _ eq_refl) as (H1 & H2 & H3 & H4 & H5 & H6 & H7 & H8).
    repeat split; try done.
  - destruct (Hshape _ eq_refl) as (H1 & H2 & H3 & H4 & H5 & H6 & H7 & H8).
    repeat split; done.
Qed.

(** X16. Every message of the feed that the scraper handles, and nothing
    else, reaches the loader: a message that [scrape_channel] returns comes
    from a handled message of the feed of a connected client, and every
    handled message of the feed is returned.  The loader stores it under the
    id of that message and the name of the channel without leading [@],
    whatever the JSON file is called; its text is never null, an absent text
    being stored as the empty string; [has_media], [views] and [forwards] are
    those of that message, and the image path is the one that was downloaded
    for it; its date, printed by [isoformat] without the letter [Z], is
    stored as it was when [fromisoformat] reads it back, and a message
    without date is stored with a null date. *)
Theorem scraped_message_is_stored
        (connected : bool) (channel_name file_stem : string)
        (feed : option (list (TelegramMessage * option (option string))))
        (now : nat → Timestamp) (i : nat) :
  lstrip_at channel_name ≠ ""%string →
  let stored_as (message : TelegramMessage) (downloaded : option string)
                (msg : Message) : Prop :=
    let t := prepare fromisoformat file_stem now i msg in
    t_message_id t = Some (id message) ∧
    t_channel_name t = lstrip_at channel_name ∧
    message_text (data (t_row t))
    = Some (match text message with Some s => s | None => ""%string end) ∧
    has_media (data (t_row t)) = Some (media message) ∧
    image_path (data (t_row t))
    = match downloaded with
      | Some p => if String.eqb p "" then None else Some p
      | None => None
      end ∧
    RawLoader.views (data (t_row t)) = Scraper.views message ∧
    RawLoader.forwards (data (t_row t)) = Scraper.forwards message ∧
    loaded_at (t_row t) = now i ∧
    (date message = None → message_date (data (t_row t)) = None) ∧
    (∀ d, date message = Some d →
          isoformat d ≠ ""%string → has_Z (isoformat d) = false →
          fromisoformat (isoformat d) = Some d →
          message_date (data (t_row t)) = Some d) in
  (∀ msg, msg ∈ scrape_channel isoformat connected channel_name feed →
          connected = true ∧
          ∃ messages message downloaded,
            feed = Some messages ∧
            (message, Some downloaded) ∈ messages ∧
            stored_as message downloaded msg) ∧
  (∀ messages message downloaded,
     connected = true → feed = Some messages →
     (message, Some downloaded) ∈ messages →
     ∃ msg, msg ∈ scrape_channel isoformat connected channel_name feed ∧
            stored_as message downloaded msg).
Proof.
  intros Hname stored_as.
  assert (Hstored : ∀ message downloaded,
            stored_as message downloaded
              (scraped_message isoformat message (lstrip_at channel_name)
                               downloaded)).
  { intros message downloaded. unfold stored_as.
    destruct (prepare_scraped_message (lstrip_at channel_name) file_stem now
                i message downloaded Hname)
      as (Hkey & Htext & Hmedia & Himage & Hviews & Hfwd & Hat & H0 & Hd).
    cbv zeta in *. unfold natural_key in Hkey.
    destruct (t_message_id _) as [id' |] eqn:Hid; [| done].
    cbn in Hkey. injection Hkey as -> Hch.
    split; [done |]. split; [done |]. split; [done |]. split; [done |].
    split; [done |]. split; [done |]. split; [done |]. split; [done |].
    split; [done |]. exact Hd. }
  split.
  - intros msg (Hc & messages & message & downloaded & Hfeed & Hin & ->)
           %scrape_channel_elements.
    split; [done |]. exists messages, message, downloaded.
    split; [done |]. split; [done |]. apply Hstored.
  - intros messages message downloaded Hc Hfeed Hin.
    exists (scraped_message isoformat message (lstrip_at channel_name)
                            downloaded).
    split; [| apply Hstored].
    apply scrape_channel_elements. split; [done |].
    by exists messages, message, downloaded.
Qed.

End WithDatetime.

Lemma scraped_message_is_stored_witness :
  lstrip_at "@chan" ≠ ""%string ∧
  ∃ msg,
    msg ∈ scrape_channel sample_isoformat true "@chan"
            (Some [(sample_message,
                    Some (Some "data/raw/images/chan/7.jpg"%string))]) ∧
    prepare sample_fromisoformat "@other" (at_time 1000) 0%nat msg =
    {| t_message_id := Some 7;
       t_channel_name := "chan";
       t_row := {| data := {| message_date := Some 1704448800000000;
                              message_text := Some ""%string;
                              has_media := Some true;
                              image_path :=
                                Some "data/raw/images/chan/7.jpg"%string;
                              RawLoader.views := Some 120;
                              RawLoader.forwards := None |};
                   loaded_at := at_time 1000 0%nat |} |}.
Proof.
  split; [done |].
  destruct (scraped_message_is_stored sample_isoformat sample_fromisoformat
              true "@chan" "@other"
              (Some [(sample_message,
                      Some (Some "data/raw/images/chan/7.jpg"%string))])
              (at_time 1000) 0%nat) as [_ Hall]; [done |].
  destruct (Hall [(sample_message,
                   Some (Some "data/raw/images/chan/7.jpg"%string))]
                 sample_message (Some "data/raw/images/chan/7.jpg"%string)
                 eq_refl eq_refl (list_elem_of_here _ _))
    as (msg & Hin & Hid & Hch & Htext & Hmedia & Himage & Hviews & Hfwd
        & Hat & _ & Hdate).
  exists msg. split; [exact Hin |].
  specialize (Hdate 1704448800000000 eq_refl).
  destruct (prepare sample_fromisoformat "@other" (at_time 1000) 0%nat msg)
    as [tid tch [[tdate ttext tmedia timage tviews tfwd] tat]].
  cbn in *. rewrite Hid, Hch, Htext, Hmedia, Himage, Hviews, Hfwd, Hat.
  by rewrite Hdate.
Defined.

End ScraperFacts.
